(** * Screen timelapse recorder: a shallow embedding of [timelapse-recorder.py]

    The script is a Tk front end around one background capture loop.  The
    embedding keeps the module globals ([recording], [selected_window],
    [output_folder]), the widgets the functions read and configure, the
    configuration file and the background threads in one record [app]; the
    functions of the script are state transformers on it.  Calls into the
    operating system (window enumeration, window geometry, screen grabbing,
    the clock, whether a codec can open a sink) are answered by a [world]
    snapshot handed to every step; every such call is taken to return (a
    library call that raises is outside the model).  The builtins of the Python runtime that
    the script relies on ([float], [str] of a float, [pathlib.Path]) are
    the fields of a [runtime]. *)

From Stdlib Require Import ZArith String Ascii List Bool Lia.
From Stdlib Require Import SpecFloat.
From stdpp Require Import base option list strings gmap.

Local Open Scope string_scope.
Local Open Scope Z_scope.

(** ** Python strings *)

Module PyStr.

Definition LF : ascii := ascii_of_nat 10.
Definition CR : ascii := ascii_of_nat 13.
Definition EQUALS : ascii := "="%char.

(** [str.isspace] on the code points below 256: the ASCII blanks
    (tab, line feed, vertical tab, form feed, carriage return, space),
    the separators 0x1c-0x1f, NEL (0x85) and the no-break space (0xa0). *)
Definition whitespace : list ascii :=
  map ascii_of_nat [9; 10; 11; 12; 13; 28; 29; 30; 31; 32; 133; 160]%nat.

Definition isspace (c : ascii) : bool := existsb (Ascii.eqb c) whitespace.

Definition eqb_char (a b : ascii) : bool := Ascii.eqb a b.

(** [c in s] for a one-character [c]. *)
Fixpoint contains (c : ascii) (s : string) : bool :=
  match s with
  | EmptyString => false
  | String a r => eqb_char a c || contains c r
  end.

Fixpoint lstrip (s : string) : string :=
  match s with
  | EmptyString => EmptyString
  | String a r => if isspace a then lstrip r else s
  end.

Fixpoint rstrip (s : string) : string :=
  match s with
  | EmptyString => EmptyString
  | String a r =>
      match rstrip r with
      | EmptyString => if isspace a then EmptyString else String a EmptyString
      | r' => String a r'
      end
  end.

(** [s.strip()] *)
Definition strip (s : string) : string := rstrip (lstrip s).

(** [s.split(sep)] for a one-character separator: never the empty list. *)
Fixpoint split (sep : ascii) (s : string) : list string :=
  match s with
  | EmptyString => [EmptyString]
  | String a r =>
      if eqb_char a sep then EmptyString :: split sep r
      else match split sep r with
           | h :: t => String a h :: t
           | [] => [String a EmptyString]
           end
  end.

(** [s.split(sep, 1)] when [sep in s]: the text before the first
    separator and the text after it; [None] when [sep] does not occur
    (the script guards the call with [sep in s]). *)
Fixpoint split_once (sep : ascii) (s : string) : option (string * string) :=
  match s with
  | EmptyString => None
  | String a r =>
      if eqb_char a sep then Some (EmptyString, r)
      else match split_once sep r with
           | Some (k, v) => Some (String a k, v)
           | None => None
           end
  end.

(** [s.lower()] on the ASCII letters. *)
Definition lower_char (c : ascii) : ascii :=
  let n := nat_of_ascii c in
  if ((65 <=? n) && (n <=? 90))%nat then ascii_of_nat (n + 32) else c.

Fixpoint lower (s : string) : string :=
  match s with
  | EmptyString => EmptyString
  | String a r => String (lower_char a) (lower r)
  end.

(** [s.endswith(suffix)] *)
Definition endswith (s suffix : string) : bool :=
  let n := String.length s in
  let k := String.length suffix in
  (k <=? n)%nat && String.eqb (substring (n - k) k s) suffix.

(** Text-mode file I/O of [pathlib]: [write_text] turns every line feed
    into [os.linesep] (CR LF on Windows), [read_text] reads with universal
    newlines, turning CR LF and a lone CR into a line feed. *)
Fixpoint translate_out (windows : bool) (s : string) : string :=
  match s with
  | EmptyString => EmptyString
  | String a r =>
      if windows && eqb_char a LF
      then String CR (String LF (translate_out windows r))
      else String a (translate_out windows r)
  end.

Fixpoint universal_newlines (s : string) : string :=
  match s with
  | EmptyString => EmptyString
  | String a r =>
      if eqb_char a CR then
        match r with
        | String b r' =>
            if eqb_char b LF then String LF (universal_newlines r')
            else String LF (universal_newlines r)
        | EmptyString => String LF EmptyString
        end
      else String a (universal_newlines r)
  end.

End PyStr.

(** ** Python floats

    A Python [float] is an IEEE 754 binary64 value; [spec_float] is the
    Standard Library's specification of those values (zeros, infinities,
    NaN, finite numbers).  Comparison with the integer [0] is comparison
    with positive zero. *)

Definition pyfloat := spec_float.

Definition float_zero : pyfloat := S754_zero false.

(** [x <= 0] *)
Definition le_zero (x : pyfloat) : bool := SFleb x float_zero.

(** [30.0] and [1.0], the defaults of [load_config]. *)
Definition float_30 : pyfloat := S754_finite false 8444249301319680 (-48).
Definition float_1 : pyfloat := S754_finite false 4503599627370496 (-52).

(** ** The Python runtime and the operating system *)

(** The builtins the script calls.  [float_of_str] is [float(s)], with
    [None] for the [ValueError] it raises on text that is no number. *)
Record runtime := {
  pathlib_Path : Type;
  Path : string -> pathlib_Path;                 (* Path(s) *)
  str_of_path : pathlib_Path -> string;          (* str(p), f"{p}" *)
  resolve : pathlib_Path -> pathlib_Path;        (* p.resolve() *)
  joinpath : pathlib_Path -> string -> pathlib_Path;  (* p / name *)
  float_of_str : string -> option pyfloat;       (* float(s) *)
  str_of_float : pyfloat -> string;              (* str(x), f"{x}" *)
  SCRIPT_DIR : pathlib_Path;
  sys_platform : string
}.

Definition is_win32 (R : runtime) : bool := String.eqb (sys_platform R) "win32".

(** A capture region, the dict [{'left', 'top', 'width', 'height'}]. *)
Record rect := { r_left : Z; r_top : Z; r_width : Z; r_height : Z }.

(** A raster image, [numpy] array of shape [(rows, cols, channels)];
    [pixels] stands for its contents. *)
Record image := { rows : Z; cols : Z; channels : Z; pixels : nat }.

(** What the operating system and the libraries answer at one moment. *)
Record world := {
  EnumWindows : list (Z * bool * string);  (* handle, IsWindowVisible, GetWindowText *)
  GetWindowRect : Z -> Z * Z * Z * Z;      (* left, top, right, bottom *)
  monitors_1 : rect;                       (* sct.monitors[1] *)
  grab : rect -> image;                    (* np.array(sct.grab(monitor)) *)
  now : string;                            (* datetime.now().strftime('%Y%m%d_%H%M%S') *)
  sink_opens : string -> string -> pyfloat -> Z * Z -> bool
                                           (* does VideoWriter(file, fourcc, fps, size) open *)
}.

(** [cv2.cvtColor(img, cv2.COLOR_BGRA2BGR)]: the alpha channel is dropped. *)
Definition cvtColor_BGRA2BGR (img : image) : image :=
  {| rows := rows img; cols := cols img; channels := 3; pixels := pixels img |}.

(** [cv2.resize(img, (width, height))] *)
Definition resize (img : image) (width height : Z) : image :=
  {| rows := height; cols := width; channels := channels img; pixels := pixels img |}.

(** A [cv2.VideoWriter]: what it was opened with, whether it is open, the
    frames it has been given while open, and whether it was released. *)
Record writer := {
  wr_file : string;
  wr_fourcc : string;
  wr_fps : pyfloat;
  wr_size : Z * Z;            (* (width, height) *)
  isOpened : bool;
  wr_frames : list image;
  wr_released : bool
}.

Definition VideoWriter (w : world) (file fourcc : string) (fps : pyfloat) (size : Z * Z) : writer :=
  {| wr_file := file; wr_fourcc := fourcc; wr_fps := fps; wr_size := size;
     isOpened := sink_opens w file fourcc fps size;
     wr_frames := []; wr_released := false |}.

(** [out.write(img)]: a writer that is not open drops the frame. *)
Definition write (out : writer) (img : image) : writer :=
  if isOpened out then
    {| wr_file := wr_file out; wr_fourcc := wr_fourcc out; wr_fps := wr_fps out;
       wr_size := wr_size out; isOpened := true;
       wr_frames := wr_frames out ++ [img]; wr_released := wr_released out |}
  else out.

(** [out.release()] *)
Definition release (out : writer) : writer :=
  {| wr_file := wr_file out; wr_fourcc := wr_fourcc out; wr_fps := wr_fps out;
     wr_size := wr_size out; isOpened := false;
     wr_frames := wr_frames out; wr_released := true |}.

(** ** Program state *)

Inductive widget_state := normal | disabled | readonly.

(** What the program does to the outside, in order. *)
Inductive event :=
| showerror (title message : string)
| showinfo (title message : string)
| write_text (text : string)                 (* CONFIG_FILE.write_text *)
| thread_start                               (* threading.Thread(...).start() *)
| sink_open (file fourcc : string) (fps : pyfloat) (size : Z * Z) (opened : bool)
| screen_grab (monitor : rect)
| frame_write (img : image)
| sleep (seconds : pyfloat)
| sink_release (file : string).

(** The locals of [record] once the loop is reached. *)
Record locals := {
  monitor : rect;
  width : Z;
  height : Z;
  out : writer
}.

(** Where a [record] thread stands: before line 176, at the loop test of
    line 213, inside the loop body (lines 215-227), at the sleep of line
    228, or returned (with the locals it had, if it reached the loop). *)
Inductive pc :=
| at_start
| at_while (l : locals)
| in_body (l : locals)
| at_sleep (l : locals)
| returned (l : option locals).

Section Program.

Context (R : runtime).

(** The dict that [load_config] returns. *)
Record Config := {
  cfg_path : pathlib_Path R;
  cfg_fps : pyfloat;
  cfg_interval : pyfloat;
  cfg_window : string
}.

(** A running [record] closure: the variables of the enclosing
    [start_recording] call it captured, and its position. *)
Record thread := {
  th_fps : pyfloat;
  th_interval : pyfloat;
  th_save_file : pathlib_Path R;
  th_window_name : string;
  th_pc : pc
}.

Record app := {
  (* module globals *)
  recording : bool;
  selected_window : option Z;
  output_folder : pathlib_Path R;
  config : Config;
  (* config.txt: [None] when the file does not exist *)
  CONFIG_FILE : option string;
  (* widgets *)
  path_entry : string;
  fps_entry : string;
  interval_entry : string;
  filename_entry : string;
  window_combo : string;
  window_combo_values : list string;
  window_combo_state : widget_state;
  refresh_button : widget_state;
  start_button : widget_state;
  stop_button : widget_state;
  (* background threads, in the order they were started *)
  threads : list thread;
  (* everything shown, written or encoded so far, oldest first *)
  log : list event
}.

End Program.

Arguments cfg_path {R} _.
Arguments cfg_fps {R} _.
Arguments cfg_interval {R} _.
Arguments cfg_window {R} _.
Arguments th_fps {R} _.
Arguments th_interval {R} _.
Arguments th_save_file {R} _.
Arguments th_window_name {R} _.
Arguments th_pc {R} _.
Arguments recording {R} _.
Arguments selected_window {R} _.
Arguments output_folder {R} _.
Arguments config {R} _.
Arguments CONFIG_FILE {R} _.
Arguments path_entry {R} _.
Arguments fps_entry {R} _.
Arguments interval_entry {R} _.
Arguments filename_entry {R} _.
Arguments window_combo {R} _.
Arguments window_combo_values {R} _.
Arguments window_combo_state {R} _.
Arguments refresh_button {R} _.
Arguments start_button {R} _.
Arguments stop_button {R} _.
Arguments threads {R} _.
Arguments log {R} _.
Arguments Build_Config {R}.
Arguments Build_thread {R}.
Arguments Build_app {R}.

(** ** Field updates

    [set_f v st] is [st] with the global or widget [f] set to [v]. *)

Section Updates.

Context {R : runtime}.

Definition set_recording (v : bool) (st : app R) : app R :=
  {| recording := v; selected_window := selected_window st;
     output_folder := output_folder st; config := config st;
     CONFIG_FILE := CONFIG_FILE st; path_entry := path_entry st;
     fps_entry := fps_entry st; interval_entry := interval_entry st;
     filename_entry := filename_entry st; window_combo := window_combo st;
     window_combo_values := window_combo_values st;
     window_combo_state := window_combo_state st;
     refresh_button := refresh_button st; start_button := start_button st;
     stop_button := stop_button st; threads := threads st; log := log st |}.

Definition set_selected_window (v : option Z) (st : app R) : app R :=
  {| recording := recording st; selected_window := v;
     output_folder := output_folder st; config := config st;
     CONFIG_FILE := CONFIG_FILE st; path_entry := path_entry st;
     fps_entry := fps_entry st; interval_entry := interval_entry st;
     filename_entry := filename_entry st; window_combo := window_combo st;
     window_combo_values := window_combo_values st;
     window_combo_state := window_combo_state st;
     refresh_button := refresh_button st; start_button := start_button st;
     stop_button := stop_button st; threads := threads st; log := log st |}.

Definition set_output_folder (v : pathlib_Path R) (st : app R) : app R :=
  {| recording := recording st; selected_window := selected_window st;
     output_folder := v; config := config st; CONFIG_FILE := CONFIG_FILE st;
     path_entry := path_entry st; fps_entry := fps_entry st;
     interval_entry := interval_entry st;
     filename_entry := filename_entry st; window_combo := window_combo st;
     window_combo_values := window_combo_values st;
     window_combo_state := window_combo_state st;
     refresh_button := refresh_button st; start_button := start_button st;
     stop_button := stop_button st; threads := threads st; log := log st |}.

Definition set_config (v : Config R) (st : app R) : app R :=
  {| recording := recording st; selected_window := selected_window st;
     output_folder := output_folder st; config := v;
     CONFIG_FILE := CONFIG_FILE st; path_entry := path_entry st;
     fps_entry := fps_entry st; interval_entry := interval_entry st;
     filename_entry := filename_entry st; window_combo := window_combo st;
     window_combo_values := window_combo_values st;
     window_combo_state := window_combo_state st;
     refresh_button := refresh_button st; start_button := start_button st;
     stop_button := stop_button st; threads := threads st; log := log st |}.

Definition set_CONFIG_FILE (v : option string) (st : app R) : app R :=
  {| recording := recording st; selected_window := selected_window st;
     output_folder := output_folder st; config := config st;
     CONFIG_FILE := v; path_entry := path_entry st;
     fps_entry := fps_entry st; interval_entry := interval_entry st;
     filename_entry := filename_entry st; window_combo := window_combo st;
     window_combo_values := window_combo_values st;
     window_combo_state := window_combo_state st;
     refresh_button := refresh_button st; start_button := start_button st;
     stop_button := stop_button st; threads := threads st; log := log st |}.

Definition set_path_entry (v : string) (st : app R) : app R :=
  {| recording := recording st; selected_window := selected_window st;
     output_folder := output_folder st; config := config st;
     CONFIG_FILE := CONFIG_FILE st; path_entry := v;
     fps_entry := fps_entry st; interval_entry := interval_entry st;
     filename_entry := filename_entry st; window_combo := window_combo st;
     window_combo_values := window_combo_values st;
     window_combo_state := window_combo_state st;
     refresh_button := refresh_button st; start_button := start_button st;
     stop_button := stop_button st; threads := threads st; log := log st |}.

Definition set_fps_entry (v : string) (st : app R) : app R :=
  {| recording := recording st; selected_window := selected_window st;
     output_folder := output_folder st; config := config st;
     CONFIG_FILE := CONFIG_FILE st; path_entry := path_entry st;
     fps_entry := v; interval_entry := interval_entry st;
     filename_entry := filename_entry st; window_combo := window_combo st;
     window_combo_values := window_combo_values st;
     window_combo_state := window_combo_state st;
     refresh_button := refresh_button st; start_button := start_button st;
     stop_button := stop_button st; threads := threads st; log := log st |}.

Definition set_interval_entry (v : string) (st : app R) : app R :=
  {| recording := recording st; selected_window := selected_window st;
     output_folder := output_folder st; config := config st;
     CONFIG_FILE := CONFIG_FILE st; path_entry := path_entry st;
     fps_entry := fps_entry st; interval_entry := v;
     filename_entry := filename_entry st; window_combo := window_combo st;
     window_combo_values := window_combo_values st;
     window_combo_state := window_combo_state st;
     refresh_button := refresh_button st; start_button := start_button st;
     stop_button := stop_button st; threads := threads st; log := log st |}.

Definition set_filename_entry (v : string) (st : app R) : app R :=
  {| recording := recording st; selected_window := selected_window st;
     output_folder := output_folder st; config := config st;
     CONFIG_FILE := CONFIG_FILE st; path_entry := path_entry st;
     fps_entry := fps_entry st; interval_entry := interval_entry st;
     filename_entry := v; window_combo := window_combo st;
     window_combo_values := window_combo_values st;
     window_combo_state := window_combo_state st;
     refresh_button := refresh_button st; start_button := start_button st;
     stop_button := stop_button st; threads := threads st; log := log st |}.

Definition set_window_combo (v : string) (st : app R) : app R :=
  {| recording := recording st; selected_window := selected_window st;
     output_folder := output_folder st; config := config st;
     CONFIG_FILE := CONFIG_FILE st; path_entry := path_entry st;
     fps_entry := fps_entry st; interval_entry := interval_entry st;
     filename_entry := filename_entry st; window_combo := v;
     window_combo_values := window_combo_values st;
     window_combo_state := window_combo_state st;
     refresh_button := refresh_button st; start_button := start_button st;
     stop_button := stop_button st; threads := threads st; log := log st |}.

Definition set_window_combo_values (v : list string) (st : app R) : app R :=
  {| recording := recording st; selected_window := selected_window st;
     output_folder := output_folder st; config := config st;
     CONFIG_FILE := CONFIG_FILE st; path_entry := path_entry st;
     fps_entry := fps_entry st; interval_entry := interval_entry st;
     filename_entry := filename_entry st; window_combo := window_combo st;
     window_combo_values := v; window_combo_state := window_combo_state st;
     refresh_button := refresh_button st; start_button := start_button st;
     stop_button := stop_button st; threads := threads st; log := log st |}.

Definition set_window_combo_state (v : widget_state) (st : app R) : app R :=
  {| recording := recording st; selected_window := selected_window st;
     output_folder := output_folder st; config := config st;
     CONFIG_FILE := CONFIG_FILE st; path_entry := path_entry st;
     fps_entry := fps_entry st; interval_entry := interval_entry st;
     filename_entry := filename_entry st; window_combo := window_combo st;
     window_combo_values := window_combo_values st; window_combo_state := v;
     refresh_button := refresh_button st; start_button := start_button st;
     stop_button := stop_button st; threads := threads st; log := log st |}.

Definition set_refresh_button (v : widget_state) (st : app R) : app R :=
  {| recording := recording st; selected_window := selected_window st;
     output_folder := output_folder st; config := config st;
     CONFIG_FILE := CONFIG_FILE st; path_entry := path_entry st;
     fps_entry := fps_entry st; interval_entry := interval_entry st;
     filename_entry := filename_entry st; window_combo := window_combo st;
     window_combo_values := window_combo_values st;
     window_combo_state := window_combo_state st; refresh_button := v;
     start_button := start_button st; stop_button := stop_button st;
     threads := threads st; log := log st |}.

Definition set_start_button (v : widget_state) (st : app R) : app R :=
  {| recording := recording st; selected_window := selected_window st;
     output_folder := output_folder st; config := config st;
     CONFIG_FILE := CONFIG_FILE st; path_entry := path_entry st;
     fps_entry := fps_entry st; interval_entry := interval_entry st;
     filename_entry := filename_entry st; window_combo := window_combo st;
     window_combo_values := window_combo_values st;
     window_combo_state := window_combo_state st;
     refresh_button := refresh_button st; start_button := v;
     stop_button := stop_button st; threads := threads st; log := log st |}.

Definition set_stop_button (v : widget_state) (st : app R) : app R :=
  {| recording := recording st; selected_window := selected_window st;
     output_folder := output_folder st; config := config st;
     CONFIG_FILE := CONFIG_FILE st; path_entry := path_entry st;
     fps_entry := fps_entry st; interval_entry := interval_entry st;
     filename_entry := filename_entry st; window_combo := window_combo st;
     window_combo_values := window_combo_values st;
     window_combo_state := window_combo_state st;
     refresh_button := refresh_button st; start_button := start_button st;
     stop_button := v; threads := threads st; log := log st |}.

Definition set_threads (v : list (thread R)) (st : app R) : app R :=
  {| recording := recording st; selected_window := selected_window st;
     output_folder := output_folder st; config := config st;
     CONFIG_FILE := CONFIG_FILE st; path_entry := path_entry st;
     fps_entry := fps_entry st; interval_entry := interval_entry st;
     filename_entry := filename_entry st; window_combo := window_combo st;
     window_combo_values := window_combo_values st;
     window_combo_state := window_combo_state st;
     refresh_button := refresh_button st; start_button := start_button st;
     stop_button := stop_button st; threads := v; log := log st |}.

Definition set_log (v : list event) (st : app R) : app R :=
  {| recording := recording st; selected_window := selected_window st;
     output_folder := output_folder st; config := config st;
     CONFIG_FILE := CONFIG_FILE st; path_entry := path_entry st;
     fps_entry := fps_entry st; interval_entry := interval_entry st;
     filename_entry := filename_entry st; window_combo := window_combo st;
     window_combo_values := window_combo_values st;
     window_combo_state := window_combo_state st;
     refresh_button := refresh_button st; start_button := start_button st;
     stop_button := stop_button st; threads := threads st; log := v |}.

Definition set_pc (p : pc) (th : thread R) : thread R :=
  {| th_fps := th_fps th; th_interval := th_interval th;
     th_save_file := th_save_file th; th_window_name := th_window_name th;
     th_pc := p |}.

(** Append one event to the log. *)
Definition emit (e : event) (st : app R) : app R := set_log (log st ++ [e]) st.

End Updates.

(** ** The functions of the script *)

Section Functions.

Context {R : runtime}.

Import PyStr.

Definition nl : string := String LF EmptyString.

(** *** Configuration store (lines 37-69) *)

Definition defaults : Config R :=
  {| cfg_path := SCRIPT_DIR R; cfg_fps := float_30;
     cfg_interval := float_1; cfg_window := "Entire Screen" |}.

(** [CONFIG_FILE.read_text()] on the stored bytes. *)
Definition read_text (raw : string) : string := universal_newlines raw.

(** The body of the loop of lines 50-53. *)
Definition parse_line (config : gmap string string) (line : string) : gmap string string :=
  if contains EQUALS line then
    match split_once EQUALS line with
    | Some (key, value) => <[strip key := strip value]> config
    | None => config
    end
  else config.

(** [float(config.get(key, default))] *)
Definition get_float (config : gmap string string) (key : string) (default : pyfloat)
  : option pyfloat :=
  match config !! key with
  | Some s => float_of_str R s
  | None => Some default
  end.

(** [load_config()], given the contents of config.txt ([None]: no such
    file).  A [float] that raises is caught by the bare [except] and the
    defaults are returned. *)
Definition load_config (file : option string) : Config R :=
  match file with
  | Some raw =>
      let lines := split LF (strip (read_text raw)) in
      let config := fold_left parse_line lines ∅ in
      match get_float config "fps" float_30, get_float config "interval" float_1 with
      | Some fps, Some interval =>
          {| cfg_path := match config !! "path" with
                         | Some s => Path R s
                         | None => SCRIPT_DIR R
                         end;
             cfg_fps := fps;
             cfg_interval := interval;
             cfg_window := default "Entire Screen" (config !! "window") |}
      | _, _ => defaults
      end
  | None => defaults
  end.

(** The f-string of line 68. *)
Definition config_text (path : pathlib_Path R) (fps interval : pyfloat) (window : string)
  : string :=
  "path=" ++ str_of_path R path ++ nl ++ "fps=" ++ str_of_float R fps ++ nl
  ++ "interval=" ++ str_of_float R interval ++ nl ++ "window=" ++ window.

(** What [write_text] leaves in the file. *)
Definition stored (text : string) : string := translate_out (is_win32 R) text.

Definition save_config (path : pathlib_Path R) (fps interval : pyfloat) (window : string)
  (st : app R) : app R :=
  let text := config_text path fps interval window in
  emit (write_text text) (set_CONFIG_FILE (Some (stored text)) st).

(** *** Windows (lines 75-113) *)

Definition get_window_list (w : world) : list (string * option Z) :=
  ("Entire Screen", None)
  :: (if is_win32 R then
        omap (fun e : Z * bool * string =>
                let '(hwnd, visible, title) := e in
                if visible && negb (String.eqb title "") then Some (title, Some hwnd)
                else None)
             (EnumWindows w)
      else []).

Definition refresh_windows (w : world) (st : app R) : app R :=
  let window_names := (get_window_list w).*1 in
  let saved_window := cfg_window (config st) in
  set_window_combo
    (if existsb (String.eqb saved_window) window_names then saved_window
     else "Entire Screen")
    (set_window_combo_values window_names st).

Definition get_window_rect (w : world) (hwnd : Z) : option rect :=
  if is_win32 R then
    let '(x0, y0, x1, y1) := GetWindowRect w hwnd in
    Some {| r_left := x0; r_top := y0; r_width := x1 - x0; r_height := y1 - y0 |}
  else None.

(** *** browse_folder (lines 115-129); [folder] is what the dialog returned. *)

Definition browse_folder (folder : string) (st : app R) : app R :=
  if String.eqb folder "" then st
  else
    let st1 := set_path_entry folder (set_output_folder (Path R folder) st) in
    match float_of_str R (fps_entry st1), float_of_str R (interval_entry st1) with
    | Some fps, Some interval =>
        save_config (output_folder st1) fps interval (window_combo st1) st1
    | _, _ => st1
    end.

(** *** start_recording (lines 131-172 and 238) *)

(** The loop of lines 155-159: the handle of the first entry named
    [window_name], [None] when there is none. *)
Fixpoint find_window (window_name : string) (windows : list (string * option Z)) : option Z :=
  match windows with
  | [] => None
  | (name, hwnd) :: rest =>
      if String.eqb name window_name then hwnd else find_window window_name rest
  end.

(** Lines 169-172. *)
Definition widgets_recording (st : app R) : app R :=
  set_refresh_button disabled
    (set_window_combo_state disabled
       (set_stop_button normal (set_start_button disabled st))).

(** Lines 188-191 and 233-236. *)
Definition widgets_idle (st : app R) : app R :=
  set_refresh_button normal
    (set_window_combo_state normal
       (set_stop_button disabled (set_start_button normal st))).

Definition spawn (th : thread R) (st : app R) : app R :=
  emit thread_start (set_threads (threads st ++ [th]) st).

Definition start_recording (w : world) (st : app R) : app R :=
  if recording st then st
  else
    match float_of_str R (fps_entry st), float_of_str R (interval_entry st) with
    | Some fps, Some interval =>
        let filename :=
          let typed := strip (filename_entry st) in
          if String.eqb typed "" then "timelapse_" ++ now w ++ ".mp4" else typed in
        if le_zero fps || le_zero interval then
          emit (showerror "Error" "FPS and Interval must be > 0") st
        else
          let filename :=
            if endswith (lower filename) ".mp4" then filename else filename ++ ".mp4" in
          let window_name := window_combo st in
          let windows := get_window_list w in
          let st1 := set_selected_window (find_window window_name windows) st in
          let chosen_path := resolve R (Path R (path_entry st1)) in
          let st2 := save_config chosen_path fps interval window_name st1 in
          let st3 := set_output_folder chosen_path st2 in
          let save_file := joinpath R (output_folder st3) filename in
          let st4 := widgets_recording (set_recording true st3) in
          spawn {| th_fps := fps; th_interval := interval; th_save_file := save_file;
                   th_window_name := window_name; th_pc := at_start |} st4
    | _, _ => emit (showerror "Error" "Invalid numeric input") st
    end.

(** *** stop_recording (lines 240-242) *)

Definition stop_recording (st : app R) : app R := set_recording false st.

(** *** record (lines 174-236), one step of a thread at a time

    A step of the thread [th] in state [st] yields the position the thread
    moves to and the state its effects leave; [record] stores the position
    in the thread table. *)

(** Python truthiness of [selected_window]: [None] and the handle 0 are false. *)
Definition truthy (hwnd : option Z) : bool :=
  match hwnd with
  | Some h => negb (h =? 0)
  | None => false
  end.

(** Lines 178-195: the capture region, [None] on the error path of line 185. *)
Definition capture_region (w : world) (st : app R) : option rect :=
  match selected_window st with
  | None => Some (monitors_1 w)
  | Some hwnd =>
      if is_win32 R then get_window_rect w hwnd else Some (monitors_1 w)
  end.

(** Lines 176-211. *)
Definition record_start (w : world) (th : thread R) (st : app R) : pc * app R :=
  match capture_region w st with
  | None =>
      (returned None,
       widgets_idle
         (set_recording false
            (emit (showerror "Error" "Could not get window dimensions") st)))
  | Some monitor =>
      let frame := grab w monitor in
      let height := rows frame in
      let width := cols frame in
      let file := str_of_path R (th_save_file th) in
      let fps := th_fps th in
      let out1 := VideoWriter w file "avc1" fps (width, height) in
      let st1 :=
        emit (sink_open file "avc1" fps (width, height) (isOpened out1))
          (emit (screen_grab monitor) st) in
      let out2 := VideoWriter w file "mp4v" fps (width, height) in
      let out := if isOpened out1 then out1 else out2 in
      let st2 :=
        if isOpened out1 then st1
        else emit (sink_open file "mp4v" fps (width, height) (isOpened out2)) st1 in
      let window_info :=
        if truthy (selected_window st) then " (" ++ th_window_name th ++ ")"
        else " (Entire Screen)" in
      (at_while {| monitor := monitor; width := width; height := height; out := out |},
       emit (showinfo "Recording Started"
               ("Recording" ++ window_info ++ nl ++ "Saving to:" ++ nl ++ file))
         st2)
  end.

(** Line 213, and lines 230-236 when the flag is found cleared. *)
Definition record_while (th : thread R) (l : locals) (st : app R) : pc * app R :=
  if recording st then (in_body l, st)
  else
    let file := str_of_path R (th_save_file th) in
    let l' := {| monitor := monitor l; width := width l; height := height l;
                 out := release (out l) |} in
    (returned (Some l'),
     widgets_idle
       (emit (showinfo "Recording Finished" ("✅ Timelapse saved to:" ++ nl ++ file))
          (emit (sink_release file) st))).

(** Lines 217-218: [if rect: monitor = rect]. *)
Definition keep_or_update (answer : option rect) (current : rect) : rect :=
  match answer with
  | Some r => r
  | None => current
  end.

(** Lines 215-218: the region for this tick. *)
Definition update_monitor (w : world) (st : app R) (current : rect) : rect :=
  match selected_window st with
  | Some hwnd =>
      if is_win32 R then keep_or_update (get_window_rect w hwnd) current
      else current
  | None => current
  end.

(** Lines 224-225. *)
Definition fit (img : image) (width height : Z) : image :=
  if negb (cols img =? width) || negb (rows img =? height)
  then resize img width height else img.

(** Lines 215-227. *)
Definition record_body (w : world) (l : locals) (st : app R) : pc * app R :=
  let monitor := update_monitor w st (monitor l) in
  let img := cvtColor_BGRA2BGR (grab w monitor) in
  let img := fit img (width l) (height l) in
  let l' := {| monitor := monitor; width := width l; height := height l;
               out := write (out l) img |} in
  (at_sleep l', emit (frame_write img) (emit (screen_grab monitor) st)).

(** Line 228. *)
Definition record_sleep (th : thread R) (l : locals) (st : app R) : pc * app R :=
  (at_while l, emit (sleep (th_interval th)) st).

Definition step (w : world) (th : thread R) (st : app R) : pc * app R :=
  match th_pc th with
  | at_start => record_start w th st
  | at_while l => record_while th l st
  | in_body l => record_body w l st
  | at_sleep l => record_sleep th l st
  | returned l => (returned l, st)
  end.

Definition goto (i : nat) (p : pc) (st : app R) : app R :=
  set_threads (alter (set_pc p) i (threads st)) st.

(** Thread [i] takes its next step; a thread that has returned, or that
    does not exist, takes none. *)
Definition record (w : world) (i : nat) (st : app R) : app R :=
  match threads st !! i with
  | Some th =>
      match th_pc th with
      | returned _ => st
      | _ => let r := step w th st in goto i r.1 r.2
      end
  | None => st
  end.

End Functions.

Arguments get_window_list R w : clear implicits.
Arguments get_window_rect R w hwnd : clear implicits.

(** ** The running program *)

Section System.

Context {R : runtime}.

(** Module start-up (lines 24-25, 71-73, 245-290): the state the main loop
    begins with, given what config.txt holds. *)
Definition startup (w : world) (file : option string) : app R :=
  let config := load_config file in
  refresh_windows w
    {| recording := false; selected_window := None;
       output_folder := cfg_path config; config := config;
       CONFIG_FILE := file;
       path_entry := str_of_path R (cfg_path config);
       fps_entry := str_of_float R (cfg_fps config);
       interval_entry := str_of_float R (cfg_interval config);
       filename_entry := "timelapse.mp4";
       window_combo := ""; window_combo_values := [];
       window_combo_state := readonly;
       refresh_button := normal; start_button := normal; stop_button := disabled;
       threads := []; log := [] |}.

(** What can happen next: the user edits a field, picks or types a window
    name, presses a button, or a background thread takes a step. *)
Inductive action :=
| type_path (text : string)
| type_fps (text : string)
| type_interval (text : string)
| type_filename (text : string)
| type_window (text : string)
| select_window (n : nat)
| click_browse (folder : string)
| click_refresh
| click_start
| click_stop
| thread_step (i : nat).

(** A Tk button runs its command only when it is not disabled. *)
Definition enabled (s : widget_state) : bool :=
  match s with
  | disabled => false
  | _ => true
  end.

Definition exec (w : world) (a : action) (st : app R) : app R :=
  match a with
  | type_path text => set_path_entry text st
  | type_fps text => set_fps_entry text st
  | type_interval text => set_interval_entry text st
  | type_filename text => set_filename_entry text st
  | type_window text =>
      (* only an editable combobox accepts typed text *)
      match window_combo_state st with
      | normal => set_window_combo text st
      | _ => st
      end
  | select_window n =>
      if enabled (window_combo_state st) then
        match window_combo_values st !! n with
        | Some name => set_window_combo name st
        | None => st
        end
      else st
  | click_browse folder => browse_folder folder st
  | click_refresh => if enabled (refresh_button st) then refresh_windows w st else st
  | click_start => if enabled (start_button st) then start_recording w st else st
  | click_stop => if enabled (stop_button st) then stop_recording st else st
  | thread_step i => record w i st
  end.

(** A run: each action with the world it meets. *)
Definition run (acts : list (world * action)) (st : app R) : app R :=
  fold_left (fun s wa => exec wa.1 wa.2 s) acts st.

Definition reachable (st : app R) : Prop :=
  exists w file acts, st = run acts (startup w file).

(** The locals a thread has, once it reached the loop. *)
Definition pc_locals (p : pc) : option locals :=
  match p with
  | at_start => None
  | at_while l | in_body l | at_sleep l => Some l
  | returned l => l
  end.

Definition in_loop (p : pc) : bool :=
  match p with
  | at_while _ | in_body _ | at_sleep _ => true
  | _ => false
  end.

Definition is_returned (p : pc) : bool :=
  match p with
  | returned _ => true
  | _ => false
  end.

(** The writer of thread [i], when it has opened one. *)
Definition writer_of (i : nat) (st : app R) : option writer :=
  th ← threads st !! i; l ← pc_locals (th_pc th); Some (out l).

End System.

(** [n / fps] in binary64 arithmetic: the seconds a container of [n]
    frames at rate [fps] plays. *)
Definition float_of_nat (n : nat) : pyfloat := binary_normalize 53 1024 (Z.of_nat n) 0 false.

Definition playable_duration (out : writer) : pyfloat :=
  SFdiv 53 1024 (float_of_nat (length (wr_frames out))) (wr_fps out).

Definition is_showerror (e : event) : bool :=
  match e with
  | showerror _ _ => true
  | _ => false
  end.

(** ** Concrete runtimes and worlds

    A small instance of the runtime (paths as plain strings, [float] and
    [str] on a table of literals) and a few desktops, used to run the
    program on concrete inputs. *)

Module Sample.

Definition float_2 : pyfloat := S754_finite false 4503599627370496 (-51).
Definition float_5 : pyfloat := S754_finite false 5629499534213120 (-50).
Definition float_minus_1 : pyfloat := S754_finite true 4503599627370496 (-52).

Definition same_float (x y : pyfloat) : bool :=
  match x, y with
  | S754_zero a, S754_zero b => Bool.eqb a b
  | S754_infinity a, S754_infinity b => Bool.eqb a b
  | S754_nan, S754_nan => true
  | S754_finite a m e, S754_finite b n f => Bool.eqb a b && Pos.eqb m n && Z.eqb e f
  | _, _ => false
  end.

(** Literals as [repr] prints them, and a few more that [float] accepts. *)
Definition printed : list (string * pyfloat) :=
  [("30.0", float_30); ("1.0", float_1); ("2.0", float_2); ("5.0", float_5);
   ("0.0", float_zero); ("-1.0", float_minus_1); ("nan", S754_nan);
   ("inf", S754_infinity false)].

Definition accepted : list (string * pyfloat) :=
  printed ++ [("30", float_30); ("1", float_1); ("2", float_2); ("5", float_5);
              ("0", float_zero); ("-1", float_minus_1)].

Definition parse_float (s : string) : option pyfloat :=
  snd <$> find (fun e : string * pyfloat => String.eqb e.1 (PyStr.strip s)) accepted.

Definition print_float (x : pyfloat) : string :=
  match find (fun e : string * pyfloat => same_float e.2 x) printed with
  | Some e => e.1
  | None => "nan"
  end.

Definition join (p name : string) : string := p ++ "/" ++ name.

Definition linux : runtime :=
  {| pathlib_Path := string;
     Path := fun s => if String.eqb s "" then "." else s;
     str_of_path := fun p => p;
     resolve := fun p => p;
     joinpath := join;
     float_of_str := parse_float;
     str_of_float := print_float;
     SCRIPT_DIR := "/opt/timelapse";
     sys_platform := "linux" |}.

Definition windows : runtime :=
  {| pathlib_Path := string;
     Path := fun s => if String.eqb s "" then "." else s;
     str_of_path := fun p => p;
     resolve := fun p => p;
     joinpath := join;
     float_of_str := parse_float;
     str_of_float := print_float;
     SCRIPT_DIR := "C:/timelapse";
     sys_platform := "win32" |}.

Definition screen : rect := {| r_left := 0; r_top := 0; r_width := 1920; r_height := 1080 |}.

(** The grabbed image has the size of the region; [tag] tells grabs apart. *)
Definition grab_region (tag : nat) (m : rect) : image :=
  {| rows := r_height m; cols := r_width m; channels := 4; pixels := tag |}.

(** A desktop with one visible titled window, handle 42, 800 x 600. *)
Definition desk : world :=
  {| EnumWindows := [(42, true, "Notepad"); (7, false, "Hidden"); (9, true, "")];
     GetWindowRect := fun _ => (10, 20, 810, 620);
     monitors_1 := screen;
     grab := grab_region 1;
     now := "20240101_120000";
     sink_opens := fun _ _ _ _ => true |}.

(** The same desktop after the window was resized to 640 x 480. *)
Definition desk_resized : world :=
  {| EnumWindows := EnumWindows desk;
     GetWindowRect := fun _ => (10, 20, 650, 500);
     monitors_1 := screen;
     grab := grab_region 2;
     now := "20240101_120005";
     sink_opens := fun _ _ _ _ => true |}.

(** The same desktop after the window was closed: it is no longer
    listed, and the geometry call answers with the last rectangle. *)
Definition desk_closed : world :=
  {| EnumWindows := [(7, false, "Hidden")];
     GetWindowRect := fun _ => (10, 20, 650, 500);
     monitors_1 := screen;
     grab := grab_region 3;
     now := "20240101_120010";
     sink_opens := fun _ _ _ _ => true |}.

(** A desktop on which no codec opens a sink. *)
Definition desk_no_codec : world :=
  {| EnumWindows := EnumWindows desk;
     GetWindowRect := GetWindowRect desk;
     monitors_1 := screen;
     grab := grab_region 1;
     now := "20240101_120000";
     sink_opens := fun _ _ _ _ => false |}.

(** A desktop on which only the fallback codec opens a sink. *)
Definition desk_no_h264 : world :=
  {| EnumWindows := EnumWindows desk;
     GetWindowRect := GetWindowRect desk;
     monitors_1 := screen;
     grab := grab_region 1;
     now := "20240101_120000";
     sink_opens := fun _ fourcc _ _ => String.eqb fourcc "mp4v" |}.

(** The program right after start-up, with no config.txt. *)
Definition fresh_linux : app linux := startup desk None.
Definition fresh_windows : app windows := startup desk None.

(** The user has picked the Notepad window (entry 1 of the list). *)
Definition notepad_picked : app windows := exec desk (select_window 1) fresh_windows.

(** ... and pressed Start. *)
Definition notepad_started : app windows := exec desk click_start notepad_picked.

(** Three ticks of the capture loop: start, then (test, body, sleep) x 3. *)
Definition tick (w : world) : list (world * action) :=
  [(w, thread_step 0%nat); (w, thread_step 0%nat); (w, thread_step 0%nat)].

Definition notepad_three_ticks : app windows :=
  run ([(desk, thread_step 0%nat)] ++ tick desk ++ tick desk_resized ++ tick desk_resized)
    notepad_started.

(** Only the fallback codec opens: the session of a picked Notepad window
    after its first step and one tick. *)
Definition fallback_session : app windows :=
  run ([(desk_no_h264, click_start); (desk_no_h264, thread_step 0%nat)] ++ tick desk_no_h264)
    notepad_picked.

(** The session of [notepad_started] inside its first loop iteration. *)
Definition notepad_in_body : app windows :=
  run [(desk, thread_step 0%nat); (desk, thread_step 0%nat)] notepad_started.


(** The window was picked, then closed before Start was pressed. *)
Definition closed_before_start : app windows := exec desk_closed click_start notepad_picked.

(** No codec opens the sink: the thread starts, runs one tick, the user
    presses Stop, the thread finishes. *)
Definition no_codec_session : app windows :=
  run ([(desk_no_codec, thread_step 0%nat)] ++ tick desk_no_codec
       ++ [(desk_no_codec, click_stop); (desk_no_codec, thread_step 0%nat)])
    notepad_started.

(** On Linux: one full-screen session is recorded and stopped, which
    leaves the window box editable; the user types a window name into it,
    presses Start, and the new thread takes its first step. *)
Definition linux_after_first_session : app linux :=
  run [(desk, click_start); (desk, thread_step 0%nat); (desk, click_stop);
       (desk, thread_step 0%nat)] fresh_linux.

Definition linux_window_typed : app linux :=
  exec desk (type_window "Notepad") linux_after_first_session.

Definition linux_window_capture : app linux :=
  run [(desk, click_start); (desk, thread_step 1%nat)] linux_window_typed.

(** A configuration and the state it is saved from. *)
Definition sample_config : Config windows :=
  Build_Config (R:=windows) "C:/videos" float_30 float_5 "Notepad".

(** A state in which a session is running and the fields were edited. *)
Definition edited_while_recording : app windows :=
  run [(desk, type_fps "abc"); (desk, type_path "D:/elsewhere")] notepad_in_body.

(** Idle states with an fps text that is no number, and with fps 0. *)
Definition fps_not_a_number : app windows := exec desk (type_fps "fast") fresh_windows.
Definition fps_zero : app windows := exec desk (type_fps "0") fresh_windows.

(** A window title with a carriage return in it. *)
Definition title_with_cr : string := "Note" ++ String PyStr.CR "pad".

Definition config_with_cr : Config windows :=
  Build_Config (R:=windows) "C:/videos" float_30 float_5 title_with_cr.

End Sample.

(** ** Vocabulary of the statements *)

Section Vocabulary.

Context {R : runtime}.

(** A thread is live until [record] returns. *)
Definition live (th : thread R) : bool := negb (is_returned (th_pc th)).

(** At most one [record] thread is live, and while one is, the Start
    button is disabled and the Stop button enabled. *)
Definition single_session (st : app R) : Prop :=
  forall i th, threads st !! i = Some th -> live th = true ->
    start_button st = disabled /\ stop_button st = normal
    /\ forall j th', threads st !! j = Some th' -> live th' = true -> j = i.

(** How many steps of its own a thread in the loop still takes once the
    flag is cleared, and how many frames it still writes. *)
Definition steps_left (p : pc) : nat :=
  match p with
  | in_body _ => 3
  | at_sleep _ => 2
  | at_while _ => 1
  | _ => 0
  end.

Definition writes_left (p : pc) : nat :=
  match p with
  | in_body _ => 1
  | _ => 0
  end.

(** The steps of thread [i] among the actions of a run. *)
Definition is_step_of (i : nat) (wa : world * action) : bool :=
  match wa.2 with
  | thread_step k => Nat.eqb k i
  | _ => false
  end.

Definition steps_of (i : nat) (acts : list (world * action)) : nat :=
  length (filter (fun wa => is_step_of i wa = true) acts).

(** All frames of a writer have the pixel size [(width0, height0)]. *)
Definition frames_sized (width0 height0 : Z) (o : writer) : Prop :=
  Forall (fun f => cols f = width0 /\ rows f = height0) (wr_frames o).

(** The encoder of a thread was opened with the frame rate the thread
    captured. *)
Definition fps_kept (fps : pyfloat) (th : thread R) : Prop :=
  th_fps th = fps ∧ ∀ l, pc_locals (th_pc th) = Some l → wr_fps (out l) = fps.

(** Once past line 203, a thread keeps [width] and [height], its encoder
    has that size, and so has every frame the encoder was given. *)
Definition size_kept (width0 height0 : Z) (th : thread R) : Prop :=
  th_pc th ≠ at_start
  ∧ ∀ l, pc_locals (th_pc th) = Some l →
      width l = width0 ∧ height l = height0
      ∧ wr_size (out l) = (width0, height0)
      ∧ frames_sized width0 height0 (out l).

End Vocabulary.

(** ** Further vocabulary *)

Section MoreVocabulary.

Context {R : runtime}.

(** The key under which the loop of lines 50-53 files a line, if any. *)
Definition line_key (line : string) : option string :=
  if PyStr.contains PyStr.EQUALS line then
    (fun kv : string * string => PyStr.strip kv.1) <$> PyStr.split_once PyStr.EQUALS line
  else None.

(** The text of a config file with the four keys in the order
    [save_config] writes them, for arbitrary value texts. *)
Definition four_lines (P F I W : string) : string :=
  "path=" ++ P ++ nl ++ "fps=" ++ F ++ nl ++ "interval=" ++ I ++ nl ++ "window=" ++ W.

(** A value text that passes through the file unchanged: no line feed, no
    carriage return, no blank at either end. *)
Definition plain (v : string) : Prop :=
  PyStr.contains PyStr.LF v = false /\ PyStr.contains PyStr.CR v = false
  /\ PyStr.strip v = v.

(** ["\n".join(lines)]: a file with these lines. *)
Fixpoint join_lines (lines : list string) : string :=
  match lines with
  | [] => ""
  | [line] => line
  | line :: rest => line ++ nl ++ join_lines rest
  end.

(** A line as an editor leaves it: not empty, and [plain]. *)
Definition tidy (line : string) : Prop := line <> "" /\ plain line.

(** Lines 55-62: the record [load_config] builds from the dict of lines
    49-53, the defaults when a [float] raises. *)
Definition config_of (config : gmap string string) : Config R :=
  match get_float (R:=R) config "fps" float_30,
        get_float (R:=R) config "interval" float_1 with
  | Some fps, Some interval =>
      {| cfg_path := match config !! "path" with
                     | Some s => Path R s
                     | None => SCRIPT_DIR R
                     end;
         cfg_fps := fps;
         cfg_interval := interval;
         cfg_window := default "Entire Screen" (config !! "window") |}
  | _, _ => defaults
  end.

(** The encoder of a thread is unreleased as long as the thread is in the
    loop, and released and closed once the thread has returned from it. *)
Definition encoder_lifecycle (th : thread R) : Prop :=
  forall l, pc_locals (th_pc th) = Some l ->
    (in_loop (th_pc th) = true -> wr_released (out l) = false)
    /\ (is_returned (th_pc th) = true ->
        wr_released (out l) = true /\ isOpened (out l) = false).

(** Every frame the encoder of a thread holds has three channels. *)
Definition frames_bgr (th : thread R) : Prop :=
  forall l, pc_locals (th_pc th) = Some l ->
    Forall (fun frame => channels frame = 3) (wr_frames (out l)).

(** The variables a thread captured are those of [th0]. *)
Definition same_closure (th0 th : thread R) : Prop :=
  th_fps th = th_fps th0 /\ th_interval th = th_interval th0
  /\ th_save_file th = th_save_file th0 /\ th_window_name th = th_window_name th0.

(** The flag is set only while a thread is live, and with no live thread
    the widgets are those of the idle program. *)
Definition settled (st : app R) : Prop :=
  (recording st = true -> exists i th, threads st !! i = Some th /\ live th = true)
  /\ ((forall i th, threads st !! i = Some th -> live th = false) ->
      start_button st = normal /\ stop_button st = disabled
      /\ refresh_button st = normal /\ enabled (window_combo_state st) = true).



End MoreVocabulary.

(** ** More concrete inputs *)

Module MoreSample.

Import Sample.

(** Two visible windows with the same title, behind a hidden one. *)
Definition desk_two_notepads : world :=
  {| EnumWindows := [(7, false, "Notepad"); (42, true, "Notepad"); (43, true, "Notepad")];
     GetWindowRect := fun _ => (10, 20, 810, 620);
     monitors_1 := screen;
     grab := grab_region 1;
     now := "20240101_120000";
     sink_opens := fun _ _ _ _ => true |}.

(** A configuration with [=] in its path and its window name. *)
Definition config_with_equals : Config windows :=
  Build_Config (R:=windows) "C:/a=b" float_30 float_5 "x = y".



End MoreSample.

(** * Properties *)

(** ** Threads and runs *)

Section ThreadFacts.

Context {R : runtime}.

Implicit Types (st : app R) (th : thread R) (w : world) (a : action) (i j : nat).

Lemma run_nil st : run [] st = st.
Proof. reflexivity. Qed.

Lemma run_cons w a acts st : run ((w, a) :: acts) st = run acts (exec w a st).
Proof. reflexivity. Qed.

Lemma set_pc_same th : set_pc (th_pc th) th = th.
Proof. by destruct th. Qed.

(** The effects of a step leave the thread table alone. *)
Lemma step_threads w th st : threads (step w th st).2 = threads st.
Proof.
  unfold step, record_start, record_while, record_body, record_sleep.
  destruct (th_pc th); simpl; try done.
  - destruct (capture_region w st); simpl; [|done].
    by destruct (sink_opens w _ _ _ _).
  - by destruct (recording st).
Qed.

(** [record] moves thread [i] to the position its step computes... *)
Lemma record_lookup_eq w i st th :
  threads st !! i = Some th →
  threads (record w i st) !! i = Some (set_pc (step w th st).1 th).
Proof.
  intros Hi. unfold record. rewrite Hi.
  assert (Hgo : threads (goto i (step w th st).1 (step w th st).2) !! i
                = Some (set_pc (step w th st).1 th)).
  { unfold goto. simpl. rewrite step_threads, list_lookup_alter_eq, Hi. done. }
  destruct (th_pc th) eqn:Hpc; try exact Hgo.
  unfold step. rewrite Hpc. simpl. by rewrite <- Hpc, set_pc_same.
Qed.

(** ... and leaves the others where they are. *)
Lemma record_lookup_ne w i j st : i ≠ j → threads (record w i st) !! j = threads st !! j.
Proof.
  intros Hne. unfold record.
  destruct (threads st !! i) as [th|] eqn:Hi; [|done].
  assert (Hgo : threads (goto i (step w th st).1 (step w th st).2) !! j = threads st !! j).
  { unfold goto. simpl. rewrite step_threads. by apply list_lookup_alter_ne. }
  by destruct (th_pc th).
Qed.

Lemma record_missing w i st : threads st !! i = None → record w i st = st.
Proof. intros Hi. unfold record. by rewrite Hi. Qed.

(** [start_recording] only ever appends to the thread table. *)
Lemma start_recording_threads w st :
  threads (start_recording w st) = threads st
  ∨ ∃ th, th_pc th = at_start ∧ threads (start_recording w st) = (threads st ++ [th])%list.
Proof.
  unfold start_recording.
  destruct (recording st); [by left|].
  destruct (float_of_str R (fps_entry st)) as [fps|]; [|by left].
  destruct (float_of_str R (interval_entry st)) as [interval|]; [|by left].
  destruct (le_zero fps || le_zero interval); [by left|].
  right. eexists. split; [|reflexivity]. done.
Qed.

Lemma browse_folder_threads folder st : threads (browse_folder folder st) = threads st.
Proof.
  unfold browse_folder. destruct (String.eqb folder ""); [done|]. simpl.
  destruct (float_of_str R (fps_entry st)); [|done].
  by destruct (float_of_str R (interval_entry st)).
Qed.

(** Every action other than a step of thread [i] leaves thread [i] as it is. *)
Lemma exec_lookup_other w a i st th :
  threads st !! i = Some th → a ≠ thread_step i →
  threads (exec w a st) !! i = Some th.
Proof.
  intros Hi Ha. destruct a; simpl; try done.
  - by destruct (window_combo_state st).
  - destruct (enabled (window_combo_state st)); [|done].
    by destruct (window_combo_values st !! n).
  - by rewrite browse_folder_threads.
  - by destruct (enabled (refresh_button st)).
  - destruct (enabled (start_button st)); [|done].
    destruct (start_recording_threads w st) as [->|(th' & _ & ->)]; [done|].
    by apply lookup_app_l_Some.
  - by destruct (enabled (stop_button st)).
  - rewrite record_lookup_ne; [done|]. congruence.
Qed.

Lemma exec_lookup w a i st th :
  threads st !! i = Some th →
  threads (exec w a st) !! i = Some th
  ∨ (a = thread_step i ∧ threads (exec w a st) !! i = Some (set_pc (step w th st).1 th)).
Proof.
  intros Hi.
  destruct a as [| | | | | | | | | |k]; try (left; by apply exec_lookup_other).
  destruct (decide (k = i)) as [->|Hne].
  - right. split; [done|]. by apply record_lookup_eq.
  - left. apply exec_lookup_other; [done|congruence].
Qed.

End ThreadFacts.

(** ** Starting a session *)

Section Start.

Context {R : runtime}.

Implicit Types (st : app R) (th : thread R) (w : world).

(** Good parameters, from the idle state: the whole of lines 148-172 and
    238 runs, for the file name of lines 139 and 149-150. *)
Lemma start_recording_valid w st fps interval :
  recording st = false →
  float_of_str R (fps_entry st) = Some fps →
  float_of_str R (interval_entry st) = Some interval →
  le_zero fps = false → le_zero interval = false →
  ∃ filename,
    let window_name := window_combo st in
    let chosen_path := resolve R (Path R (path_entry st)) in
    start_recording w st =
      spawn {| th_fps := fps; th_interval := interval;
               th_save_file := joinpath R chosen_path filename;
               th_window_name := window_name; th_pc := at_start |}
        (widgets_recording
           (set_recording true
              (set_output_folder chosen_path
                 (save_config chosen_path fps interval window_name
                    (set_selected_window
                       (find_window window_name (get_window_list R w)) st))))).
Proof.
  intros Hrec Hfps Hint Hf Hi. unfold start_recording.
  rewrite Hrec, Hfps, Hint, Hf, Hi. simpl. eexists. reflexivity.
Qed.

(** Bad parameters: the only effect is one error dialog. *)
Lemma start_recording_invalid w st :
  recording st = false →
  float_of_str R (fps_entry st) = None
  ∨ float_of_str R (interval_entry st) = None
  ∨ (∃ fps, float_of_str R (fps_entry st) = Some fps ∧ le_zero fps = true)
  ∨ (∃ interval, float_of_str R (interval_entry st) = Some interval
                 ∧ le_zero interval = true) →
  ∃ message, start_recording w st = emit (showerror "Error" message) st.
Proof.
  intros Hrec Hbad. unfold start_recording. rewrite Hrec.
  destruct (float_of_str R (fps_entry st)) as [fps|] eqn:Hfps;
    [|by eexists].
  destruct (float_of_str R (interval_entry st)) as [interval|] eqn:Hint;
    [|by eexists].
  assert (Hle : le_zero fps || le_zero interval = true).
  { destruct Hbad as [?|[?|[(f & Hf & Hz)|(g & Hg & Hz)]]]; simplify_eq.
    - by rewrite Hz.
    - rewrite Hz. by destruct (le_zero fps). }
  rewrite Hle. by eexists.
Qed.

(** C10.  Calling [start_recording] while a session is running changes
    nothing at all: the returned state is the state it was called in, so no
    parameter was validated, no config saved, no encoder opened, no thread
    started, and the recording flag, the output folder, the selected window
    and every widget are as before. *)
Theorem start_while_recording_is_noop w st :
  recording st = true → start_recording w st = st.
Proof. intros Hrec. unfold start_recording. by rewrite Hrec. Qed.

(** C4.  [start_recording] with an fps or interval text that [float]
    rejects, or with fps <= 0 or interval <= 0, starts nothing: the
    recording flag, the thread table and config.txt are as before, the
    events added to the log are error dialogs only (no sink is opened, no
    thread started, no config written), and from the idle state exactly one
    error dialog is shown. *)
Theorem invalid_parameters_rejected w st :
  float_of_str R (fps_entry st) = None
  ∨ float_of_str R (interval_entry st) = None
  ∨ (∃ fps, float_of_str R (fps_entry st) = Some fps ∧ le_zero fps = true)
  ∨ (∃ interval, float_of_str R (interval_entry st) = Some interval
                 ∧ le_zero interval = true) →
  let st' := start_recording w st in
  recording st' = recording st
  ∧ threads st' = threads st
  ∧ CONFIG_FILE st' = CONFIG_FILE st
  ∧ selected_window st' = selected_window st
  ∧ output_folder st' = output_folder st
  ∧ (∃ shown, log st' = (log st ++ shown)%list
              ∧ Forall (λ e, is_showerror e = true) shown
              ∧ (recording st = false → ∃ message, shown = [showerror "Error" message])).
Proof.
  intros Hbad. destruct (recording st) eqn:Hrec.
  - simpl. unfold start_recording. rewrite Hrec.
    repeat split; try done. exists []. rewrite app_nil_r. by repeat split.
  - destruct (start_recording_invalid w st Hrec Hbad) as [message Hst].
    simpl. rewrite Hst. simpl. rewrite Hrec. repeat split; try done.
    exists [showerror "Error" message]. repeat split; [|by eexists].
    by repeat constructor.
Qed.

End Start.

(** ** The capture loop: what every thread keeps true *)

Section Loop.

Context {R : runtime}.

Implicit Types (st : app R) (th : thread R) (w : world) (l : locals) (o : writer).

(** A property of threads that every step preserves holds of a thread
    throughout any run, whatever else happens in between. *)
Lemma run_thread_invariant (P : thread R → Prop) :
  (∀ w st th, P th → P (set_pc (step w th st).1 th)) →
  ∀ acts st i th,
    threads st !! i = Some th → P th →
    ∃ th', threads (run acts st) !! i = Some th' ∧ P th'.
Proof.
  intros Hstep acts. induction acts as [|[w a] acts IH]; intros st i th Hi HP.
  - exists th. by rewrite run_nil.
  - rewrite run_cons.
    destruct (exec_lookup w a i st th Hi) as [Hsame|[_ Hmoved]].
    + by apply (IH _ _ th).
    + apply (IH _ _ _ Hmoved). by apply Hstep.
Qed.

Lemma write_fps o img : wr_fps (write o img) = wr_fps o.
Proof. unfold write. by destruct (isOpened o). Qed.

Lemma write_size o img : wr_size (write o img) = wr_size o.
Proof. unfold write. by destruct (isOpened o). Qed.

Lemma write_frames o img :
  wr_frames (write o img) = if isOpened o then (wr_frames o ++ [img])%list else wr_frames o.
Proof. unfold write. by destruct (isOpened o). Qed.

(** Lines 224-225 leave an image of the size the encoder was opened with. *)
Lemma fit_size img width0 height0 :
  cols (fit img width0 height0) = width0 ∧ rows (fit img width0 height0) = height0.
Proof.
  unfold fit.
  destruct (cols img =? width0) eqn:Hc; destruct (rows img =? height0) eqn:Hr;
    simpl; try done.
  by apply Z.eqb_eq in Hc, Hr.
Qed.

Lemma fps_kept_step fps w st th : fps_kept fps th → fps_kept fps (set_pc (step w th st).1 th).
Proof.
  intros [Hfps Hout]. split; [done|]. simpl. intros l.
  unfold step, record_start, record_while, record_body, record_sleep.
  destruct (th_pc th) as [|l0|l0|l0|[l0|]] eqn:Hpc; simpl in *.
  - destruct (capture_region w st); simpl; [|done].
    intros [= <-]. simpl. by destruct (sink_opens w _ _ _ _).
  - destruct (recording st); simpl; intros [= <-]; simpl; by apply Hout.
  - intros [= <-]. simpl. rewrite write_fps. by apply Hout.
  - intros [= <-]. by apply Hout.
  - intros [= <-]. by apply Hout.
  - done.
Qed.

Lemma size_kept_step width0 height0 w st th :
  size_kept width0 height0 th → size_kept width0 height0 (set_pc (step w th st).1 th).
Proof.
  intros [Hpc0 Hl]. unfold size_kept, step, record_while, record_body, record_sleep.
  destruct (th_pc th) as [|l0|l0|l0|[l0|]] eqn:Hpc; simpl in *; try done.
  - destruct (recording st); simpl; (split; [done|]); intros l [= <-]; simpl;
      by apply Hl.
  - split; [done|]. intros l [= <-]. simpl.
    destruct (Hl l0 eq_refl) as (Hw & Hh & Hs & Hf).
    rewrite write_size. repeat split; try done.
    unfold frames_sized in *. rewrite write_frames.
    destruct (isOpened (out l0)); [|done].
    apply Forall_app. split; [done|]. constructor; [|done].
    rewrite Hw, Hh. apply fit_size.
Qed.

(** The first step of a thread whose region resolves opens the encoder
    with the size of the frame it grabbed, and no frame in it yet. *)
Lemma record_start_size w st th m :
  th_pc th = at_start → capture_region w st = Some m →
  size_kept (cols (grab w m)) (rows (grab w m)) (set_pc (step w th st).1 th).
Proof.
  intros Hpc Hm. unfold size_kept, step, record_start. rewrite Hpc, Hm. simpl.
  split; [done|]. intros l [= <-]. simpl.
  repeat split; try by destruct (sink_opens w _ _ _ _).
  unfold frames_sized. destruct (sink_opens w _ _ _ _); simpl; constructor.
Qed.

(** C1.  Start two sessions from the same idle state and the same fps
    text, with two interval texts (both valid), and let each run through any
    actions at all.  Whatever the two encoders of the threads so started
    are by then, both were opened with the configured fps; and a writer
    that holds n frames plays for n / fps seconds, where fps is that
    configured rate and neither the interval nor the run occurs. *)
Theorem frame_rate_independent_of_interval
    w st fps text1 text2 interval1 interval2 acts1 acts2 :
  recording st = false →
  float_of_str R (fps_entry st) = Some fps → le_zero fps = false →
  float_of_str R text1 = Some interval1 → le_zero interval1 = false →
  float_of_str R text2 = Some interval2 → le_zero interval2 = false →
  let n := length (threads st) in
  let st1 := run acts1 (start_recording w (set_interval_entry text1 st)) in
  let st2 := run acts2 (start_recording w (set_interval_entry text2 st)) in
  ∀ out1 out2,
    writer_of n st1 = Some out1 → writer_of n st2 = Some out2 →
    wr_fps out1 = fps ∧ wr_fps out2 = fps
    ∧ playable_duration out1 = SFdiv 53 1024 (float_of_nat (length (wr_frames out1))) fps
    ∧ playable_duration out2 = SFdiv 53 1024 (float_of_nat (length (wr_frames out2))) fps.
Proof.
  intros Hrec Hfps Hf H1 Hi1 H2 Hi2 n st1 st2 out1 out2 Ho1 Ho2.
  assert (Hone : ∀ text interval acts o,
            float_of_str R text = Some interval → le_zero interval = false →
            writer_of n (run acts (start_recording w (set_interval_entry text st))) = Some o →
            wr_fps o = fps).
  { intros text interval acts o Ht Hi Ho.
    destruct (start_recording_valid w (set_interval_entry text st) fps interval)
      as [filename Hst]; try done.
    simpl in Hst.
    set (th0 := {| th_fps := fps; th_interval := interval;
                   th_save_file := joinpath R (resolve R (Path R (path_entry st))) filename;
                   th_window_name := window_combo st; th_pc := at_start |}) in *.
    assert (Hth0 : threads (start_recording w (set_interval_entry text st)) !! n = Some th0).
    { rewrite Hst. simpl. by rewrite lookup_app_r, Nat.sub_diag. }
    destruct (run_thread_invariant (fps_kept fps) (fps_kept_step fps) acts _ n th0 Hth0)
      as (th' & Hth' & _ & Hkept); [by split|].
    unfold writer_of in Ho. rewrite Hth' in Ho. simpl in Ho.
    destruct (pc_locals (th_pc th')) as [l|] eqn:Hl; [|done].
    simpl in Ho. injection Ho as <-. by apply Hkept. }
  assert (E1 : wr_fps out1 = fps) by (by eapply (Hone text1)).
  assert (E2 : wr_fps out2 = fps) by (by eapply (Hone text2)).
  unfold playable_duration. rewrite E1, E2. done.
Qed.

(** C3.  Take a thread at the start of [record] whose capture region
    resolves, let it take its first step (which grabs the first frame and
    opens the encoder with that frame's width and height) and then let
    anything happen.  Whatever the thread's encoder holds afterwards, it has
    the size of that first frame and so has every frame in it: the window
    may have been resized or moved at any tick, the grabbed image is brought
    back to the first size before it is written. *)
Theorem frame_size_fixed w st i th m acts :
  threads st !! i = Some th → th_pc th = at_start →
  capture_region w st = Some m →
  let width0 := cols (grab w m) in
  let height0 := rows (grab w m) in
  ∀ o, writer_of i (run acts (record w i st)) = Some o →
    wr_size o = (width0, height0)
    ∧ Forall (λ frame, cols frame = width0 ∧ rows frame = height0) (wr_frames o).
Proof.
  intros Hi Hpc Hm width0 height0 o Ho.
  pose proof (record_lookup_eq w i st th Hi) as Hfirst.
  pose proof (record_start_size w st th m Hpc Hm) as Hkept0.
  destruct (run_thread_invariant (size_kept width0 height0)
              (size_kept_step width0 height0) acts _ i _ Hfirst Hkept0)
    as (th' & Hth' & _ & Hkept).
  unfold writer_of in Ho. rewrite Hth' in Ho. simpl in Ho.
  destruct (pc_locals (th_pc th')) as [l|] eqn:Hl; [|done].
  simpl in Ho. injection Ho as <-.
  destruct (Hkept l eq_refl) as (_ & _ & Hs & Hf). by split.
Qed.

End Loop.

(** ** One session at a time *)

Section Session.

Context {R : runtime}.

Implicit Types (st : app R) (th : thread R) (w : world) (l : locals) (a : action).

Lemma single_session_ext st st' :
  threads st' = threads st → start_button st' = start_button st →
  stop_button st' = stop_button st →
  single_session st → single_session st'.
Proof.
  intros Ht Hs Hp Hinv i th Hi Hl. rewrite Ht in Hi. rewrite Hs, Hp.
  destruct (Hinv i th Hi Hl) as (? & ? & Hu). repeat split; try done.
  intros j th' Hj. rewrite Ht in Hj. by apply Hu.
Qed.

(** A thread that has not returned leaves the Start and Stop buttons alone. *)
Lemma step_buttons w th st :
  is_returned (step w th st).1 = false →
  start_button (step w th st).2 = start_button st
  ∧ stop_button (step w th st).2 = stop_button st.
Proof.
  unfold step, record_start, record_while, record_body, record_sleep.
  destruct (th_pc th); simpl; try done.
  - destruct (capture_region w st); simpl; [|done].
    by destruct (sink_opens w _ _ _ _).
  - by destruct (recording st).
Qed.

(** No step of [record] sets the flag. *)
Lemma step_recording w th st :
  recording st = false → recording (step w th st).2 = false.
Proof.
  unfold step, record_start, record_while, record_body, record_sleep.
  intros Hrec. destruct (th_pc th); simpl; try done.
  - destruct (capture_region w st); simpl; [|done].
    by destruct (sink_opens w _ _ _ _).
  - by rewrite Hrec.
Qed.

Lemma record_live w i st th :
  threads st !! i = Some th → live th = true →
  record w i st = goto i (step w th st).1 (step w th st).2.
Proof.
  intros Hi Hl. unfold record. rewrite Hi.
  unfold live in Hl. by destruct (th_pc th).
Qed.

Lemma record_not_live w i st :
  (∀ th, threads st !! i = Some th → live th = false) → record w i st = st.
Proof.
  intros Hn. unfold record. destruct (threads st !! i) as [th|] eqn:Hi; [|done].
  specialize (Hn th eq_refl). unfold live in Hn. by destruct (th_pc th).
Qed.

(** What [start_recording] does to the thread table, the two buttons and
    the flag: nothing, or a new thread at its start with Start disabled,
    Stop enabled and the flag set. *)
Lemma start_recording_cases w st :
  (threads (start_recording w st) = threads st
   ∧ start_button (start_recording w st) = start_button st
   ∧ stop_button (start_recording w st) = stop_button st
   ∧ recording (start_recording w st) = recording st)
  ∨ (∃ th, th_pc th = at_start
           ∧ threads (start_recording w st) = (threads st ++ [th])%list
           ∧ start_button (start_recording w st) = disabled
           ∧ stop_button (start_recording w st) = normal
           ∧ recording (start_recording w st) = true).
Proof.
  unfold start_recording.
  destruct (recording st) eqn:Hrec; [by left|].
  destruct (float_of_str R (fps_entry st)) as [fps|]; [|by left].
  destruct (float_of_str R (interval_entry st)) as [interval|]; [|by left].
  destruct (le_zero fps || le_zero interval); [by left|].
  right. eexists. split; [|by repeat split]. done.
Qed.

Lemma browse_folder_buttons folder st :
  start_button (browse_folder folder st) = start_button st
  ∧ stop_button (browse_folder folder st) = stop_button st
  ∧ recording (browse_folder folder st) = recording st.
Proof.
  unfold browse_folder. destruct (String.eqb folder ""); [done|]. simpl.
  destruct (float_of_str R (fps_entry st)); [|done].
  by destruct (float_of_str R (interval_entry st)).
Qed.

Lemma single_session_start w st :
  single_session st → enabled (start_button st) = true →
  single_session (start_recording w st).
Proof.
  intros Hinv Hen.
  assert (Hidle : ∀ i th, threads st !! i = Some th → live th = false).
  { intros i th Hi. destruct (live th) eqn:Hl; [|done].
    destruct (Hinv i th Hi Hl) as (Hdis & _). by rewrite Hdis in Hen. }
  destruct (start_recording_cases w st) as [(Ht & Hs & Hp & _)|(th0 & Hpc & Ht & Hs & Hp & _)].
  - by apply (single_session_ext st).
  - assert (Hlast : ∀ i th, threads (start_recording w st) !! i = Some th →
                      live th = true → i = length (threads st)).
    { intros i th Hi Hl. rewrite Ht in Hi.
      apply lookup_app_Some in Hi as [Hi|[Hge Hi]].
      - by rewrite (Hidle i th Hi) in Hl.
      - destruct (i - length (threads st))%nat eqn:Hd; [lia|done]. }
    intros i th Hi Hl. rewrite Hs, Hp. repeat split; try done.
    intros j th' Hj Hl'. rewrite (Hlast i th Hi Hl). by apply (Hlast j th').
Qed.

Lemma single_session_record w k st : single_session st → single_session (record w k st).
Proof.
  intros Hinv.
  destruct (threads st !! k) as [th|] eqn:Hk;
    [|by rewrite record_missing].
  destruct (live th) eqn:Hl;
    [|rewrite record_not_live; [done|]; intros ? ?; by simplify_eq].
  destruct (Hinv k th Hk Hl) as (Hdis & Hnorm & Huniq).
  assert (Hat : ∀ i th', threads (record w k st) !! i = Some th' → live th' = true →
                  i = k ∧ is_returned (step w th st).1 = false).
  { intros i th' Hi Hl'. destruct (decide (k = i)) as [->|Hne].
    - split; [done|]. rewrite (record_lookup_eq w i st th Hk) in Hi.
      injection Hi as <-. unfold live in Hl'. simpl in Hl'.
      by destruct (is_returned _).
    - rewrite record_lookup_ne in Hi by done.
      by rewrite (Huniq i th' Hi Hl') in Hne. }
  intros i th' Hi Hl'. destruct (Hat i th' Hi Hl') as [-> Hnr].
  assert (Hb : start_button (record w k st) = start_button st
               ∧ stop_button (record w k st) = stop_button st).
  { rewrite (record_live w k st th Hk Hl). simpl. by apply step_buttons. }
  destruct Hb as [-> ->]. repeat split; try done.
  intros j th'' Hj Hl''. by destruct (Hat j th'' Hj Hl'').
Qed.

Lemma single_session_exec w a st : single_session st → single_session (exec w a st).
Proof.
  intros Hinv. destruct a; simpl.
  - by apply (single_session_ext st).
  - by apply (single_session_ext st).
  - by apply (single_session_ext st).
  - by apply (single_session_ext st).
  - by destruct (window_combo_state st).
  - destruct (enabled (window_combo_state st)); [|done].
    destruct (window_combo_values st !! n); [|done]. by apply (single_session_ext st).
  - destruct (browse_folder_buttons folder st) as (? & ? & _).
    apply (single_session_ext st); try done. apply browse_folder_threads.
  - destruct (enabled (refresh_button st)); [|done]. by apply (single_session_ext st).
  - destruct (enabled (start_button st)) eqn:Hen; [|done].
    by apply single_session_start.
  - destruct (enabled (stop_button st)); [|done]. by apply (single_session_ext st).
  - by apply single_session_record.
Qed.

Lemma single_session_run acts st : single_session st → single_session (run acts st).
Proof.
  revert st. induction acts as [|[w a] acts IH]; intros st Hinv; [done|].
  rewrite run_cons. apply IH. by apply single_session_exec.
Qed.

Lemma single_session_startup w file : single_session (startup (R:=R) w file).
Proof. intros i th Hi. by destruct i. Qed.

Lemma reachable_single_session st : reachable st → single_session st.
Proof.
  intros (w & file & acts & ->). apply single_session_run, single_session_startup.
Qed.

(** While a session's thread is live and the flag is down, nothing but
    that thread's own steps can raise the flag again. *)
Lemma flag_stays_down w a i st th :
  single_session st → threads st !! i = Some th → live th = true →
  recording st = false → a ≠ thread_step i →
  recording (exec w a st) = false.
Proof.
  intros Hinv Hi Hl Hrec Ha.
  destruct (Hinv i th Hi Hl) as (Hdis & _ & Huniq).
  destruct a; simpl; try done.
  - by destruct (window_combo_state st).
  - destruct (enabled (window_combo_state st)); [|done].
    by destruct (window_combo_values st !! n).
  - destruct (browse_folder_buttons folder st) as (_ & _ & ->). done.
  - by destruct (enabled (refresh_button st)).
  - by rewrite Hdis.
  - by destruct (enabled (stop_button st)).
  - rewrite record_not_live; [done|].
    intros th' Hk. destruct (live th') eqn:Hl'; [|done].
    destruct Ha. f_equal. by apply (Huniq i0 th').
Qed.

End Session.

(** ** Stopping *)

Section Stop.

Context {R : runtime}.

Implicit Types (st : app R) (th : thread R) (w : world) (l : locals) (a : action).

Lemma steps_of_cons i w a acts :
  steps_of i ((w, a) :: acts)
  = ((if is_step_of i (w, a) then 1 else 0) + steps_of i acts)%nat.
Proof.
  unfold steps_of. rewrite filter_cons.
  destruct (is_step_of i (w, a)) eqn:E; case_decide; simpl; congruence.
Qed.

Lemma is_step_of_true i w a : is_step_of i (w, a) = true ↔ a = thread_step i.
Proof.
  unfold is_step_of. simpl. destruct a; try (split; [done|congruence]).
  rewrite Nat.eqb_eq. split; [by intros ->|congruence].
Qed.

(** From any state in which thread [i] is past its start, the flag is down
    while the thread is live, and a returned thread has released its
    encoder: through any run, the thread writes at most [writes_left]
    further frames, and once it has taken [steps_left] steps of its own it
    has returned with the encoder released. *)
Lemma cleared_flag_run i acts :
  ∀ st th l,
    single_session st →
    threads st !! i = Some th → th_pc th ≠ at_start →
    pc_locals (th_pc th) = Some l →
    (live th = true → recording st = false) →
    (live th = false → wr_released (out l) = true ∧ isOpened (out l) = false) →
    ∃ th' l',
      threads (run acts st) !! i = Some th'
      ∧ pc_locals (th_pc th') = Some l'
      ∧ (∃ extra, wr_frames (out l') = (wr_frames (out l) ++ extra)%list
                  ∧ (length extra ≤ writes_left (th_pc th))%nat)
      ∧ ((steps_left (th_pc th) ≤ steps_of i acts)%nat →
         is_returned (th_pc th') = true
         ∧ wr_released (out l') = true ∧ isOpened (out l') = false).
Proof.
  induction acts as [|[w a] acts IH]; intros st th l Hinv Hi Hns Hloc Hdown Hrel.
  { exists th, l. rewrite run_nil. split; [done|]. split; [done|]. split.
    - exists []. rewrite app_nil_r. split; [done|simpl; lia].
    - unfold steps_of. simpl. intros Hk.
      assert (Hret : is_returned (th_pc th) = true).
      { destruct (th_pc th); simpl in *; try done; lia. }
      split; [done|]. apply Hrel. unfold live. by rewrite Hret. }
  rewrite run_cons, steps_of_cons.
  pose proof (single_session_exec w a st Hinv) as Hinv'.
  destruct (live th) eqn:Hl.
  - (* the thread is live: the flag is down *)
    specialize (Hdown eq_refl).
    destruct (is_step_of i (w, a)) eqn:Ha.
    + (* its own step *)
      apply is_step_of_true in Ha. subst a.
      pose proof (record_lookup_eq w i st th Hi) as Hi'.
      assert (Hrec' : recording (exec w (thread_step i) st) = false).
      { simpl. rewrite (record_live w i st th Hi Hl). simpl. by apply step_recording. }
      unfold step, record_while, record_body, record_sleep in Hi'.
      destruct (th_pc th) as [|l0|l0|l0|?] eqn:Hpc; simpl in Hloc, Hl; simplify_eq.
      * (* the loop test finds the flag cleared *)
        rewrite Hdown in Hi'. simpl in Hi'.
        destruct (IH _ _ _ Hinv' Hi' ltac:(done) eq_refl)
          as (th' & l' & Hth' & Hl' & (extra & He & Hn) & Hfin); simpl; try done.
        exists th', l'. repeat split; try done.
        -- exists extra. split; [done|]. by simpl in *.
        -- apply Hfin; simpl; lia.
        -- apply Hfin; simpl; lia.
        -- apply Hfin; simpl; lia.
      * (* the body: one frame *)
        simpl in Hi'.
        destruct (IH _ _ _ Hinv' Hi' ltac:(done) eq_refl)
          as (th' & l' & Hth' & Hl' & (extra & He & Hn) & Hfin); simpl; try done.
        exists th', l'. simpl in He, Hn. rewrite write_frames in He.
        destruct extra; [|simpl in Hn; lia]. rewrite app_nil_r in He.
        split; [done|]. split; [done|]. split.
        -- destruct (isOpened (out l)).
           ++ eexists. split; [exact He|simpl; lia].
           ++ exists []. rewrite app_nil_r. split; [done|simpl; lia].
        -- simpl. intros Hk. apply Hfin. simpl. lia.
      * (* the sleep *)
        simpl in Hi'.
        destruct (IH _ _ _ Hinv' Hi' ltac:(done) eq_refl)
          as (th' & l' & Hth' & Hl' & (extra & He & Hn) & Hfin); simpl; try done.
        exists th', l'. split; [done|]. split; [done|]. split.
        -- exists extra. split; [done|]. simpl in *. lia.
        -- simpl. intros Hk. apply Hfin. simpl. lia.
      * unfold live in Hl. by rewrite Hpc in Hl.
    + (* anything else: the flag stays down, the thread stays put *)
      assert (Hne : a ≠ thread_step i).
      { intros ->. rewrite (proj2 (is_step_of_true i w (thread_step i)) eq_refl) in Ha.
        done. }
      pose proof (exec_lookup_other w a i st th Hi Hne) as Hi'.
      pose proof (flag_stays_down w a i st th Hinv Hi Hl Hdown Hne) as Hrec'.
      destruct (IH _ _ _ Hinv' Hi' Hns Hloc) as (th' & l' & Hth' & Hl' & Hex & Hfin);
        [done|by rewrite Hl|].
      exists th', l'. split; [done|]. split; [done|]. split; [done|].
      intros Hk. apply Hfin. simpl in Hk. lia.
  - (* the thread has returned: nothing moves it *)
    assert (Hi' : threads (exec w a st) !! i = Some th).
    { destruct (exec_lookup w a i st th Hi) as [?|[-> Hmoved]]; [done|].
      simpl. rewrite record_not_live; [done|]. intros ? ?. by simplify_eq. }
    destruct (IH _ _ _ Hinv' Hi' Hns Hloc) as (th' & l' & Hth' & Hl' & Hex & Hfin);
      [by rewrite Hl|intros _; by apply Hrel|].
    exists th', l'. split; [done|]. split; [done|]. split; [done|].
    intros _. apply Hfin. unfold live in Hl.
    destruct (th_pc th); simpl in *; try done; lia.
Qed.


End Stop.

(** ** Strings: stripping, splitting and newline translation *)

Module PyStrFacts.

Import PyStr.

Local Arguments String.append !_ _ / : simpl nomatch.

Lemma append_assoc (a b c : string) : (a ++ b) ++ c = a ++ (b ++ c).
Proof. induction a as [|x a IH]; simpl; [done|by rewrite IH]. Qed.

Lemma contains_app c (a b : string) : contains c (a ++ b) = contains c a || contains c b.
Proof.
  induction a as [|x a IH]; simpl; [done|]. rewrite IH. by rewrite orb_assoc.
Qed.

Lemma eqb_char_eq (a b : ascii) : eqb_char a b = true ↔ a = b.
Proof. apply Ascii.eqb_eq. Qed.

(** *** lstrip, rstrip, strip *)

Lemma lstrip_length s : (String.length (lstrip s) ≤ String.length s)%nat.
Proof.
  induction s as [|a s IH]; simpl; [done|]. destruct (isspace a); simpl; lia.
Qed.

Lemma rstrip_length s : (String.length (rstrip s) ≤ String.length s)%nat.
Proof.
  induction s as [|a s IH]; simpl; [done|].
  destruct (rstrip s); [destruct (isspace a)|]; simpl in *; lia.
Qed.

Lemma lstrip_same_length s : String.length (lstrip s) = String.length s → lstrip s = s.
Proof.
  destruct s as [|a s]; simpl; [done|].
  destruct (isspace a); [|done].
  pose proof (lstrip_length s). lia.
Qed.

(** A text that [strip] leaves alone is left alone by [lstrip] and by
    [rstrip]. *)
Lemma strip_fixed s : strip s = s → lstrip s = s ∧ rstrip s = s.
Proof.
  unfold strip. intros Hs.
  assert (Hl : lstrip s = s).
  { apply lstrip_same_length.
    pose proof (lstrip_length s). pose proof (rstrip_length (lstrip s)).
    rewrite Hs in *. lia. }
  split; [done|]. by rewrite Hl in Hs.
Qed.

Lemma lstrip_cons a s : isspace a = false → lstrip (String a s) = String a s.
Proof. simpl. by intros ->. Qed.

Lemma rstrip_cons a s : isspace a = false → rstrip s = s → rstrip (String a s) = String a s.
Proof. simpl. intros Ha ->. destruct s; [by rewrite Ha|done]. Qed.

(** [rstrip] only looks at the end. *)
Lemma rstrip_app a b : b ≠ "" → rstrip b = b → rstrip (a ++ b) = a ++ b.
Proof.
  intros Hne Hb. induction a as [|x a IH]; simpl; [done|].
  rewrite IH. destruct (a ++ b) eqn:E; [|done].
  destruct a; simpl in E; [by subst|done].
Qed.

(** *** split and split_once *)

Lemma split_none sep s : contains sep s = false → split sep s = [s].
Proof.
  induction s as [|a s IH]; simpl; [done|].
  intros [Ha Hs]%orb_false_iff. rewrite Ha, (IH Hs). done.
Qed.

(** Splitting cuts at the first separator and goes on behind it. *)
Lemma split_app sep a b :
  contains sep a = false → split sep (a ++ String sep b) = a :: split sep b.
Proof.
  induction a as [|x a IH]; simpl.
  - intros _. unfold eqb_char. by rewrite Ascii.eqb_refl.
  - intros [Hx Ha]%orb_false_iff. rewrite Hx, (IH Ha). done.
Qed.

Lemma split_once_app sep k v :
  contains sep k = false → split_once sep (k ++ String sep v) = Some (k, v).
Proof.
  induction k as [|x k IH]; simpl.
  - intros _. unfold eqb_char. by rewrite Ascii.eqb_refl.
  - intros [Hx Hk]%orb_false_iff. rewrite Hx, (IH Hk). done.
Qed.

Lemma contains_sep_app sep k v : contains sep (k ++ String sep v) = true.
Proof.
  rewrite contains_app. simpl. unfold eqb_char. rewrite Ascii.eqb_refl.
  by rewrite orb_true_r.
Qed.

(** *** Newline translation *)

(** What [write_text] stored, [read_text] reads back, on either platform,
    when the text has no carriage return of its own. *)
Lemma read_back windows s :
  contains CR s = false → universal_newlines (translate_out windows s) = s.
Proof.
  induction s as [|a s IH]; simpl; [done|].
  intros [Ha Hs]%orb_false_iff.
  destruct (windows && eqb_char a LF) eqn:E.
  - apply andb_true_iff in E as [_ ->%eqb_char_eq]. simpl. by rewrite (IH Hs).
  - simpl. rewrite Ha, (IH Hs). done.
Qed.

End PyStrFacts.

(** ** The configuration store *)

Section ConfigStore.

Context {R : runtime}.

Import PyStr PyStrFacts.

Local Arguments String.append !_ _ / : simpl nomatch.

(** The text of line 68, as [key=value] lines. *)
Lemma config_text_lines P F I W :
  "path=" ++ P ++ nl ++ "fps=" ++ F ++ nl ++ "interval=" ++ I ++ nl ++ "window=" ++ W
  = ("path=" ++ P) ++ String LF (("fps=" ++ F) ++ String LF
      (("interval=" ++ I) ++ String LF ("window=" ++ W))).
Proof.
  unfold nl. rewrite <- (append_assoc "path=" P), <- (append_assoc "fps=" F),
    <- (append_assoc "interval=" I). done.
Qed.

Lemma split_config_text P F I W :
  contains LF P = false → contains LF F = false →
  contains LF I = false → contains LF W = false →
  split LF (("path=" ++ P) ++ String LF (("fps=" ++ F) ++ String LF
      (("interval=" ++ I) ++ String LF ("window=" ++ W))))
  = ["path=" ++ P; "fps=" ++ F; "interval=" ++ I; "window=" ++ W].
Proof.
  intros HP HF HI HW.
  rewrite !split_app, split_none; try done;
    rewrite contains_app; by rewrite ?HP, ?HF, ?HI, ?HW.
Qed.

Lemma strip_config_text P F I W :
  strip W = W →
  strip ("path=" ++ P ++ nl ++ "fps=" ++ F ++ nl ++ "interval=" ++ I ++ nl ++ "window=" ++ W)
  = "path=" ++ P ++ nl ++ "fps=" ++ F ++ nl ++ "interval=" ++ I ++ nl ++ "window=" ++ W.
Proof.
  intros [_ HW]%strip_fixed. unfold strip.
  match goal with |- rstrip (lstrip ?t) = _ => change (lstrip t) with t end.
  change ("window=" ++ W) with ("window" ++ String EQUALS W).
  rewrite <- !append_assoc.
  apply rstrip_app; [done|]. by apply rstrip_cons.
Qed.

Lemma config_text_no_cr P F I W :
  contains CR P = false → contains CR F = false →
  contains CR I = false → contains CR W = false →
  contains CR ("path=" ++ P ++ nl ++ "fps=" ++ F ++ nl ++ "interval=" ++ I ++ nl
               ++ "window=" ++ W) = false.
Proof.
  intros HP HF HI HW. by rewrite !contains_app, HP, HF, HI, HW.
Qed.

(** One [key=value] line goes into the dict under its key. *)
Lemma parse_line_key_value config key value :
  contains EQUALS key = false →
  parse_line config (key ++ String EQUALS value) = <[strip key := strip value]> config.
Proof.
  intros Hk. unfold parse_line.
  by rewrite contains_sep_app, split_once_app.
Qed.

Lemma save_config_file p f i window (st : app R) :
  CONFIG_FILE (save_config p f i window st) = Some (stored (R:=R) (config_text p f i window)).
Proof. reflexivity. Qed.

(** C8.  Save a configuration and load it back: the same path, fps,
    interval and window come out.  The configuration is one whose four
    values, as [save_config] prints them, hold no [=], no newline character
    (line feed or carriage return) and no blank at either end, and whose
    path and numbers are recovered from their text by [Path] and [float]. *)
Theorem config_round_trip (c : Config R) (st : app R) :
  let P := str_of_path R (cfg_path c) in
  let F := str_of_float R (cfg_fps c) in
  let I := str_of_float R (cfg_interval c) in
  let W := cfg_window c in
  Forall (λ v, contains EQUALS v = false ∧ contains LF v = false
               ∧ contains CR v = false ∧ strip v = v) [P; F; I; W] →
  Path R P = cfg_path c →
  float_of_str R F = Some (cfg_fps c) →
  float_of_str R I = Some (cfg_interval c) →
  load_config
    (CONFIG_FILE (save_config (cfg_path c) (cfg_fps c) (cfg_interval c) (cfg_window c) st))
  = c.
Proof.
  intros P F I W Hall HP HF HI.
  apply Forall_cons in Hall as [(_ & HP1 & HP2 & HP3) Hall].
  apply Forall_cons in Hall as [(_ & HF1 & HF2 & HF3) Hall].
  apply Forall_cons in Hall as [(_ & HI1 & HI2 & HI3) Hall].
  apply Forall_cons in Hall as [(_ & HW1 & HW2 & HW3) _].
  rewrite save_config_file.
  unfold load_config, read_text, stored, config_text. fold P F I W.
  rewrite read_back by (by apply config_text_no_cr).
  rewrite strip_config_text by done.
  rewrite config_text_lines, split_config_text by done.
  cbn [fold_left].
  change ("path=" ++ P) with ("path" ++ String EQUALS P).
  change ("fps=" ++ F) with ("fps" ++ String EQUALS F).
  change ("interval=" ++ I) with ("interval" ++ String EQUALS I).
  change ("window=" ++ W) with ("window" ++ String EQUALS W).
  rewrite !parse_line_key_value by done.
  rewrite HP3, HF3, HI3, HW3.
  change (strip "path") with "path". change (strip "fps") with "fps".
  change (strip "interval") with "interval". change (strip "window") with "window".
  unfold get_float. simplify_map_eq.
  rewrite HP. by destruct c.
Qed.

End ConfigStore.

(** ** Start-up of the capture thread: region and encoder *)

Section Region.

Context {R : runtime}.

Implicit Types (st : app R) (th : thread R) (w : world) (l : locals).

(** On Windows [get_window_rect] always builds a rectangle from what the
    geometry call answered, so line 185 never sees [None]; elsewhere the
    region is the primary display.  The capture region always resolves. *)
Lemma capture_region_resolves w st : is_Some (capture_region w st).
Proof.
  unfold capture_region, get_window_rect.
  destruct (selected_window st) as [hwnd|]; [|by eexists].
  destruct (is_win32 R); [|by eexists].
  destruct (GetWindowRect w hwnd) as [[[x0 y0] x1] y1]. by eexists.
Qed.

(** The fallback encoder is tried on the same file, with the same frame
    rate and frame size as the preferred one. *)
Lemma fallback_same_arguments w st i th m :
  threads st !! i = Some th → th_pc th = at_start →
  capture_region w st = Some m →
  let file := str_of_path R (th_save_file th) in
  let size := (cols (grab w m), rows (grab w m)) in
  sink_opens w file "avc1" (th_fps th) size = false →
  ∃ message,
    log (record w i st)
    = (log st ++ [screen_grab m;
                  sink_open file "avc1" (th_fps th) size false;
                  sink_open file "mp4v" (th_fps th) size
                    (sink_opens w file "mp4v" (th_fps th) size);
                  showinfo "Recording Started" message])%list.
Proof.
  intros Hi Hpc Hm file size Hno.
  unfold record. rewrite Hi, Hpc. unfold step, record_start. rewrite Hpc, Hm.
  simpl. fold file size. rewrite Hno. simpl.
  eexists. rewrite <- !app_assoc. reflexivity.
Qed.

(** C5 (amended).  From the idle state, the failures [start_recording]
    reports are the parameter failures: with an fps or interval text that is
    no number or not positive it shows one error dialog and does nothing
    else.  With valid parameters it checks nothing about the region: it
    looks the window name up in the current window list, takes [None] (the
    entire screen) when the name is not there, sets the recording flag,
    writes the config and starts the thread, with no dialog. *)
Theorem start_checks_parameters_only w st :
  recording st = false →
  let st' := start_recording w st in
  ((float_of_str R (fps_entry st) = None
    ∨ float_of_str R (interval_entry st) = None
    ∨ (∃ fps, float_of_str R (fps_entry st) = Some fps ∧ le_zero fps = true)
    ∨ (∃ interval, float_of_str R (interval_entry st) = Some interval
                   ∧ le_zero interval = true)) →
   ∃ message, st' = emit (showerror "Error" message) st)
  ∧ (∀ fps interval,
       float_of_str R (fps_entry st) = Some fps →
       float_of_str R (interval_entry st) = Some interval →
       le_zero fps = false → le_zero interval = false →
       selected_window st' = find_window (window_combo st) (get_window_list R w)
       ∧ recording st' = true
       ∧ (∃ th, th_pc th = at_start ∧ threads st' = (threads st ++ [th])%list)
       ∧ ∃ text, log st' = (log st ++ [write_text text; thread_start])%list).
Proof.
  intros Hrec st'. split.
  - intros Hbad. by apply start_recording_invalid.
  - intros fps interval Hfps Hint Hf Hi.
    destruct (start_recording_valid w st fps interval Hrec Hfps Hint Hf Hi)
      as [filename Hst].
    subst st'. rewrite Hst. simpl. repeat split.
    + eexists. split; [|reflexivity]. done.
    + eexists. by rewrite <- app_assoc.
Qed.

(** C6 (amended).  On a platform other than win32 the window list holds
    only "Entire Screen"; a start from the idle state with valid parameters
    selects the entire screen whatever name the window box holds, and shows
    no dialog; and [record] captures the primary display, at its start and
    at every tick, whatever [selected_window] holds. *)
Theorem without_window_support_full_screen w :
  is_win32 R = false →
  get_window_list R w = [("Entire Screen", None)]
  ∧ (∀ st, capture_region w st = Some (monitors_1 w))
  ∧ (∀ st current, update_monitor w st current = current)
  ∧ (∀ st fps interval,
       recording st = false →
       float_of_str R (fps_entry st) = Some fps →
       float_of_str R (interval_entry st) = Some interval →
       le_zero fps = false → le_zero interval = false →
       selected_window (start_recording w st) = None
       ∧ ∃ text, log (start_recording w st)
                 = (log st ++ [write_text text; thread_start])%list).
Proof.
  intros Hnw. repeat split.
  - unfold get_window_list. by rewrite Hnw.
  - intros st. unfold capture_region. rewrite Hnw. by destruct (selected_window st).
  - intros st current. unfold update_monitor. rewrite Hnw.
    by destruct (selected_window st).
  - destruct (start_recording_valid w st fps interval) as [filename ->]; try done.
    change (find_window (window_combo st) (get_window_list R w) = None).
    unfold get_window_list. rewrite Hnw. unfold find_window.
    by destruct (String.eqb "Entire Screen" (window_combo st)).
  - destruct (start_recording_valid w st fps interval) as [filename ->]; try done.
    simpl. eexists. by rewrite <- app_assoc.
Qed.


End Region.

(** ** The program on concrete desktops *)

Module Runs.

Import Sample.

Lemma notepad_in_body_reachable : reachable notepad_in_body.
Proof.
  exists desk, None,
    [(desk, select_window 1%nat); (desk, click_start);
     (desk, thread_step 0%nat); (desk, thread_step 0%nat)].
  vm_compute. reflexivity.
Qed.

Lemma start_while_recording_witness :
  recording edited_while_recording = true
  ∧ start_recording desk edited_while_recording = edited_while_recording.
Proof.
  split; [vm_compute; reflexivity|].
  apply (start_while_recording_is_noop desk edited_while_recording).
  vm_compute. reflexivity.
Defined.

Lemma invalid_parameters_witness :
  float_of_str windows (fps_entry fps_not_a_number) = None
  ∧ recording (start_recording desk fps_not_a_number) = false
  ∧ threads (start_recording desk fps_not_a_number) = []
  ∧ CONFIG_FILE (start_recording desk fps_not_a_number) = None
  ∧ ∃ message, log (start_recording desk fps_not_a_number) = [showerror "Error" message].
Proof.
  assert (Hbad : float_of_str windows (fps_entry fps_not_a_number) = None)
    by (vm_compute; reflexivity).
  split; [exact Hbad|].
  destruct (invalid_parameters_rejected desk fps_not_a_number (or_introl Hbad))
    as (Hrec & Hth & Hfile & _ & _ & shown & Hlog & _ & Hone).
  split; [exact Hrec|]. split; [exact Hth|]. split; [exact Hfile|].
  destruct (Hone eq_refl) as [message ->]. exists message. exact Hlog.
Defined.

Lemma frame_rate_witness :
  ∃ out1 out2,
    writer_of 0
      (run ([(desk, thread_step 0%nat)] ++ tick desk)
         (start_recording desk (set_interval_entry "1.0" notepad_picked))) = Some out1
    ∧ writer_of 0
        (run ([(desk, thread_step 0%nat)] ++ tick desk ++ tick desk_resized)
           (start_recording desk (set_interval_entry "5.0" notepad_picked))) = Some out2
    ∧ length (wr_frames out1) = 1%nat ∧ length (wr_frames out2) = 2%nat
    ∧ wr_fps out1 = float_30 ∧ wr_fps out2 = float_30
    ∧ playable_duration out1 = SFdiv 53 1024 (float_of_nat 1) float_30
    ∧ playable_duration out2 = SFdiv 53 1024 (float_of_nat 2) float_30.
Proof.
  eexists. eexists.
  split; [vm_compute; reflexivity|]. split; [vm_compute; reflexivity|].
  split; [vm_compute; reflexivity|]. split; [vm_compute; reflexivity|].
  eapply (frame_rate_independent_of_interval desk notepad_picked float_30
            "1.0" "5.0" float_1 float_5
            ([(desk, thread_step 0%nat)] ++ tick desk)
            ([(desk, thread_step 0%nat)] ++ tick desk ++ tick desk_resized));
    vm_compute; reflexivity.
Defined.

Lemma frame_size_witness :
  ∃ m o,
    capture_region desk notepad_started = Some m
    ∧ writer_of 0 (run (tick desk ++ tick desk_resized ++ tick desk_resized)
                     (record desk 0 notepad_started)) = Some o
    ∧ (cols (grab desk m), rows (grab desk m)) = (800, 600)
    ∧ (cols (grab desk_resized (update_monitor desk_resized notepad_started m)),
       rows (grab desk_resized (update_monitor desk_resized notepad_started m)))
      = (640, 480)
    ∧ length (wr_frames o) = 3%nat
    ∧ wr_size o = (800, 600)
    ∧ Forall (λ frame, cols frame = 800 ∧ rows frame = 600) (wr_frames o).
Proof.
  exists {| r_left := 10; r_top := 20; r_width := 800; r_height := 600 |}.
  eexists.
  split; [vm_compute; reflexivity|]. split; [vm_compute; reflexivity|].
  split; [vm_compute; reflexivity|]. split; [vm_compute; reflexivity|].
  split; [vm_compute; reflexivity|].
  refine (frame_size_fixed desk notepad_started 0 _
            {| r_left := 10; r_top := 20; r_width := 800; r_height := 600 |}
            (tick desk ++ tick desk_resized ++ tick desk_resized) _ _ _ _ _);
    vm_compute; reflexivity.
Defined.

Lemma config_round_trip_witness :
  load_config
    (CONFIG_FILE (save_config (cfg_path sample_config) (cfg_fps sample_config)
                    (cfg_interval sample_config) (cfg_window sample_config)
                    fresh_windows))
  = sample_config.
Proof.
  apply (config_round_trip sample_config fresh_windows).
  - repeat (constructor; [repeat split; vm_compute; reflexivity|]). constructor.
  - vm_compute. reflexivity.
  - vm_compute. reflexivity.
  - vm_compute. reflexivity.
Defined.


Lemma start_checks_parameters_only_witness :
  recording notepad_picked = false
  ∧ selected_window (start_recording desk_closed notepad_picked) = None
  ∧ recording (start_recording desk_closed notepad_picked) = true
  ∧ (∃ th, th_pc th = at_start
           ∧ threads (start_recording desk_closed notepad_picked) = [th])
  ∧ ∃ text, log (start_recording desk_closed notepad_picked)
            = [write_text text; thread_start].
Proof.
  assert (Hidle : recording notepad_picked = false) by (vm_compute; reflexivity).
  split; [exact Hidle|].
  destruct (start_checks_parameters_only desk_closed notepad_picked Hidle) as [_ Hvalid].
  refine (Hvalid float_30 float_1 _ _ _ _); vm_compute; reflexivity.
Defined.

Lemma without_window_support_witness :
  is_win32 linux = false
  ∧ get_window_list linux desk = [("Entire Screen", None)]
  ∧ capture_region desk (set_selected_window (Some 42) fresh_linux) = Some screen
  ∧ selected_window (start_recording desk linux_window_typed) = None.
Proof.
  assert (Hnw : is_win32 linux = false) by (vm_compute; reflexivity).
  split; [exact Hnw|].
  destruct (without_window_support_full_screen (R:=linux) desk Hnw)
    as (Hlist & Hregion & _ & Hstart).
  split; [exact Hlist|]. split; [exact (Hregion _)|].
  refine (proj1 (Hstart linux_window_typed float_30 float_1 _ _ _ _ _));
    vm_compute; reflexivity.
Defined.


(** C5, as stated, fails.  The user picked the Notepad window and the
    window was closed before Start was pressed: the name is no longer in the
    window list, yet [start_recording] reports nothing, sets the recording
    flag and starts the thread, which then records the entire screen. *)
Lemma unresolved_window_starts_full_screen_session :
  window_combo notepad_picked = "Notepad"
  ∧ find_window "Notepad" (get_window_list windows desk_closed) = None
  ∧ existsb (String.eqb "Notepad") (get_window_list windows desk_closed).*1 = false
  ∧ recording notepad_picked = false
  ∧ recording closed_before_start = true
  ∧ length (threads closed_before_start) = 1%nat
  ∧ selected_window closed_before_start = None
  ∧ log closed_before_start
    = [write_text ("path=C:/timelapse" ++ nl ++ "fps=30.0" ++ nl ++ "interval=1.0"
                   ++ nl ++ "window=Notepad");
       thread_start]
  ∧ log (record desk_closed 0 closed_before_start)
    = (log closed_before_start
       ++ [screen_grab screen;
           sink_open "C:/timelapse/timelapse.mp4" "avc1" float_30 (1920, 1080) true;
           showinfo "Recording Started"
             ("Recording (Entire Screen)" ++ nl ++ "Saving to:" ++ nl
              ++ "C:/timelapse/timelapse.mp4")])%list.
Proof. repeat split; vm_compute; reflexivity. Qed.

(** C6, as stated, fails.  On Linux, after a first session the window box
    is editable; the user types a window name and presses Start.  Nothing
    fails: the session starts, and its thread grabs the whole primary
    display and announces a recording of the entire screen. *)
Lemma linux_window_capture_takes_full_screen :
  is_win32 linux = false
  ∧ reachable linux_window_typed
  ∧ window_combo linux_window_typed = "Notepad"
  ∧ recording linux_window_typed = false
  ∧ recording linux_window_capture = true
  ∧ Forall (λ e, is_showerror e = false) (log linux_window_capture)
  ∧ log linux_window_capture
    = (log linux_window_typed
       ++ [write_text ("path=/opt/timelapse" ++ nl ++ "fps=30.0" ++ nl ++ "interval=1.0"
                       ++ nl ++ "window=Notepad");
           thread_start;
           screen_grab screen;
           sink_open "/opt/timelapse/timelapse.mp4" "avc1" float_30 (1920, 1080) true;
           showinfo "Recording Started"
             ("Recording (Entire Screen)" ++ nl ++ "Saving to:" ++ nl
              ++ "/opt/timelapse/timelapse.mp4")])%list
  ∧ capture_region desk (set_selected_window (Some 42) fresh_linux) = Some screen.
Proof.
  split; [vm_compute; reflexivity|]. split.
  { exists desk, None,
      [(desk, click_start); (desk, thread_step 0%nat); (desk, click_stop);
       (desk, thread_step 0%nat); (desk, type_window "Notepad")].
    vm_compute. reflexivity. }
  split; [vm_compute; reflexivity|]. split; [vm_compute; reflexivity|].
  split; [vm_compute; reflexivity|]. split.
  { vm_compute. repeat constructor. }
  split; vm_compute; reflexivity.
Qed.


(** C2: what the code does when no codec opens the sink.  Both opens are
    tried and fail; the thread announces the recording all the same, grabs
    the screen, hands the frame to the closed writer and sleeps; after Stop
    it announces a saved timelapse.  No error is ever shown and the writer
    holds no frame. *)
Theorem no_codec_goes_unreported :
  log no_codec_session
  = [write_text ("path=C:/timelapse" ++ nl ++ "fps=30.0" ++ nl ++ "interval=1.0"
                 ++ nl ++ "window=Notepad");
     thread_start;
     screen_grab {| r_left := 10; r_top := 20; r_width := 800; r_height := 600 |};
     sink_open "C:/timelapse/timelapse.mp4" "avc1" float_30 (800, 600) false;
     sink_open "C:/timelapse/timelapse.mp4" "mp4v" float_30 (800, 600) false;
     showinfo "Recording Started"
       ("Recording (Notepad)" ++ nl ++ "Saving to:" ++ nl ++ "C:/timelapse/timelapse.mp4");
     screen_grab {| r_left := 10; r_top := 20; r_width := 800; r_height := 600 |};
     frame_write {| rows := 600; cols := 800; channels := 3; pixels := 1 |};
     sleep float_1;
     sink_release "C:/timelapse/timelapse.mp4";
     showinfo "Recording Finished"
       ("✅ Timelapse saved to:" ++ nl ++ "C:/timelapse/timelapse.mp4")]
  ∧ (wr_frames <$> writer_of 0 no_codec_session) = Some []
  ∧ Forall (λ e, is_showerror e = false) (log no_codec_session).
Proof.
  repeat split; try (vm_compute; reflexivity).
  vm_compute. repeat constructor.
Qed.

(** The scenario of a start with fps 0. *)
Example fps_zero_is_rejected :
  log (exec desk click_start fps_zero) = [showerror "Error" "FPS and Interval must be > 0"]
  ∧ threads (exec desk click_start fps_zero) = []
  ∧ recording (exec desk click_start fps_zero) = false.
Proof. repeat split; vm_compute; reflexivity. Qed.

(** Three ticks on an 800 x 600 window that shrinks after the first: three
    frames of 800 x 600, which at 30 fps play for a tenth of a second. *)
Example three_ticks_three_frames :
  (wr_frames <$> writer_of 0 notepad_three_ticks)
  = Some [{| rows := 600; cols := 800; channels := 3; pixels := 1 |};
          {| rows := 600; cols := 800; channels := 3; pixels := 2 |};
          {| rows := 600; cols := 800; channels := 3; pixels := 2 |}]
  ∧ (playable_duration <$> writer_of 0 notepad_three_ticks)
    = Some (S754_finite false 7205759403792794 (-56)).
Proof. split; vm_compute; reflexivity. Qed.

(** When only the fallback codec opens, the session records with it. *)
Example fallback_codec_records :
  (wr_fourcc <$> writer_of 0 fallback_session) = Some "mp4v"
  ∧ (isOpened <$> writer_of 0 fallback_session) = Some true
  ∧ (length <$> (wr_frames <$> writer_of 0 fallback_session)) = Some 1%nat.
Proof. repeat split; vm_compute; reflexivity. Qed.

(** Why C8 counts the carriage return as a newline: [read_text] reads it
    as a line feed, so a window title holding one (and no line feed, no [=],
    no blank at its ends) is cut at it. *)
Lemma carriage_return_cuts_the_line :
  PyStr.contains PyStr.LF title_with_cr = false
  ∧ PyStr.contains PyStr.EQUALS title_with_cr = false
  ∧ PyStr.strip title_with_cr = title_with_cr
  ∧ cfg_window (R:=windows)
      (load_config
         (CONFIG_FILE (save_config (cfg_path config_with_cr) (cfg_fps config_with_cr)
                         (cfg_interval config_with_cr) (cfg_window config_with_cr)
                         fresh_windows)))
    = "Note".
Proof. repeat split; vm_compute; reflexivity. Qed.

End Runs.

(** * Further properties of the code *)

(** ** More on strings *)

Module PyStrMore.

Import PyStr PyStrFacts.

Local Arguments String.append !_ _ / : simpl nomatch.






(** Characters that are not in a text are not in what [lstrip], [rstrip],
    [universal_newlines] or [split] make of it. *)
Lemma contains_lstrip c s : contains c s = false → contains c (lstrip s) = false.
Proof.
  induction s as [|a s IH]; simpl; [done|].
  intros [Ha Hs]%orb_false_iff. destruct (isspace a); [by apply IH|].
  simpl. by rewrite Ha, Hs.
Qed.

Lemma contains_rstrip c s : contains c s = false → contains c (rstrip s) = false.
Proof.
  induction s as [|a s IH]; simpl; [done|].
  intros [Ha Hs]%orb_false_iff. specialize (IH Hs).
  destruct (rstrip s) as [|b r]; [destruct (isspace a)|]; simpl in *; try done.
  - by rewrite Ha.
  - by rewrite Ha, IH.
Qed.

Lemma contains_universal_newlines c s :
  c ≠ LF → contains c s = false → contains c (universal_newlines s) = false.
Proof.
  intros Hc. assert (Hlf : Ascii.eqb LF c = false).
  { apply Ascii.eqb_neq. congruence. }
  induction s as [|a s IH]; [done|].
  cbn [contains universal_newlines]. unfold eqb_char in *.
  intros [Ha Hs]%orb_false_iff. specialize (IH Hs).
  destruct (Ascii.eqb a CR).
  - destruct s as [|b s']; cbn [contains]; unfold eqb_char; [by rewrite Hlf|].
    destruct (Ascii.eqb b LF) eqn:Hb; cbn [contains]; unfold eqb_char; rewrite Hlf.
    + apply Ascii.eqb_eq in Hb. subst b.
      cbn [universal_newlines contains] in IH. unfold eqb_char in IH.
      replace (Ascii.eqb LF CR) with false in IH by done.
      cbn [contains] in IH. unfold eqb_char in IH. by rewrite Hlf in IH.
    + done.
  - cbn [contains]. unfold eqb_char. by rewrite Ha.
Qed.

Lemma contains_split c sep s :
  contains c s = false → Forall (λ line, contains c line = false) (split sep s).
Proof.
  induction s as [|a s IH]; simpl; [by repeat constructor|].
  intros [Ha Hs]%orb_false_iff. specialize (IH Hs).
  destruct (eqb_char a sep); [by constructor|].
  destruct (split sep s) as [|h t]; [by repeat constructor; simpl; rewrite Ha|].
  apply Forall_cons in IH as [Hh Ht]. constructor; [|done]. simpl. by rewrite Ha, Hh.
Qed.

End PyStrMore.

(** ** More on the configuration store *)

Section ConfigStoreMore.

Context {R : runtime}.

Import PyStr PyStrFacts PyStrMore.

Local Arguments String.append !_ _ / : simpl nomatch.

(** [config_of] is the tail of [load_config]. *)
Lemma load_config_config_of raw :
  load_config (R:=R) (Some raw)
  = config_of (fold_left parse_line (split LF (strip (read_text raw))) ∅).
Proof. reflexivity. Qed.

(** A line is skipped, or filed under its key. *)
Lemma parse_line_cases line :
  (line_key line = None ∧ ∀ m, parse_line m line = m)
  ∨ (∃ k v, line_key line = Some k ∧ ∀ m, parse_line m line = <[k:=v]> m).
Proof.
  unfold line_key, parse_line. destruct (contains EQUALS line); [|by left].
  destruct (split_once EQUALS line) as [[k v]|]; [|by left].
  right. by exists (strip k), (strip v).
Qed.

Lemma parse_lines_skip lines m :
  Forall (λ line, contains EQUALS line = false) lines →
  fold_left parse_line lines m = m.
Proof.
  revert m. induction lines as [|line lines IH]; intros m Hall; [done|].
  apply Forall_cons in Hall as [Hline Hall]. simpl.
  unfold parse_line at 2. rewrite Hline. by apply IH.
Qed.

(** What the dict holds under a key depends on what it held under that
    key before, and on the lines. *)
Lemma parse_lines_lookup key lines m m' :
  m !! key = m' !! key →
  fold_left parse_line lines m !! key = fold_left parse_line lines m' !! key.
Proof.
  revert m m'. induction lines as [|line lines IH]; intros m m' Hm; [done|].
  simpl. apply IH.
  destruct (parse_line_cases line) as [[_ Hskip]|(k & v & _ & Hput)].
  - by rewrite !Hskip.
  - rewrite !Hput. destruct (decide (k = key)) as [->|Hne].
    + by rewrite !lookup_insert_eq.
    + by rewrite !lookup_insert_ne.
Qed.

Lemma parse_lines_absent key lines :
  key ∉ omap line_key lines → fold_left parse_line lines ∅ !! key = None.
Proof.
  assert (Hgen : ∀ m, key ∉ omap line_key lines → m !! key = None →
                      fold_left parse_line lines m !! key = None).
  { induction lines as [|line lines IH]; intros m Hkey Hm; [done|].
    simpl in *. destruct (parse_line_cases line) as [[Hk Hskip]|(k & v & Hk & Hput)].
    - rewrite Hk in Hkey. rewrite Hskip. by apply IH.
    - rewrite Hk in Hkey. apply not_elem_of_cons in Hkey as [Hne Hkey].
      rewrite Hput. apply IH; [done|]. by rewrite lookup_insert_ne. }
  intros Hkey. by apply Hgen.
Qed.

(** [config_of] looks at four keys only. *)
Lemma config_of_ext (m m' : gmap string string) :
  (∀ key, key ∈ ["path"; "fps"; "interval"; "window"] → m !! key = m' !! key) →
  config_of m = config_of (R:=R) m'.
Proof.
  intros Hm. unfold config_of, get_float.
  rewrite (Hm "fps"), (Hm "interval"), (Hm "path"), (Hm "window"); [done|..];
    set_solver.
Qed.

(** *** From the file to its lines *)

Lemma join_lines_cons line rest :
  rest ≠ [] → join_lines (line :: rest) = line ++ String LF (join_lines rest).
Proof. by destruct rest. Qed.

Lemma join_lines_no_cr lines :
  Forall tidy lines → contains CR (join_lines lines) = false.
Proof.
  induction lines as [|line rest IH]; [done|].
  intros [(_ & _ & Hcr & _) Hrest]%Forall_cons.
  destruct rest as [|line' rest]; [done|].
  rewrite join_lines_cons by done. rewrite contains_app, Hcr.
  cbn [contains]. by rewrite (IH Hrest).
Qed.

Lemma split_join_lines lines :
  lines ≠ [] → Forall tidy lines → split LF (join_lines lines) = lines.
Proof.
  induction lines as [|line rest IH]; [done|].
  intros _ [(_ & Hlf & _ & _) Hrest]%Forall_cons.
  destruct rest as [|line' rest]; [by apply split_none|].
  rewrite join_lines_cons by done. rewrite split_app by done.
  by rewrite IH.
Qed.

Lemma rstrip_join_lines lines :
  Forall tidy lines → rstrip (join_lines lines) = join_lines lines.
Proof.
  induction lines as [|line rest IH]; [done|].
  intros [(Hne & _ & _ & Hstrip) Hrest]%Forall_cons.
  destruct rest as [|line' rest]; [by apply strip_fixed|].
  rewrite join_lines_cons by done.
  change (line ++ String LF (join_lines (line' :: rest)))
    with (line ++ (String LF "" ++ join_lines (line' :: rest))).
  rewrite <- append_assoc. apply rstrip_app; [|by apply IH].
  apply Forall_cons in Hrest as [(Hne' & _) _].
  destruct line' as [|x line']; [done|]. by destruct rest.
Qed.

Lemma lstrip_join_lines lines :
  Forall tidy lines → lstrip (join_lines lines) = join_lines lines.
Proof.
  destruct lines as [|line rest]; [done|].
  intros [(Hne & _ & _ & Hstrip) _]%Forall_cons.
  apply strip_fixed in Hstrip as [Hl _].
  destruct line as [|x line]; [done|].
  assert (Hx : isspace x = false).
  { simpl in Hl. destruct (isspace x); [|done].
    pose proof (lstrip_length line) as Hlen. rewrite Hl in Hlen. simpl in Hlen. lia. }
  destruct rest as [|line' rest]; simpl; by rewrite Hx.
Qed.

(** A file of tidy lines is read back as those lines, on either platform. *)
Lemma lines_of_file lines :
  lines ≠ [] → Forall tidy lines →
  split LF (strip (read_text (stored (R:=R) (join_lines lines)))) = lines.
Proof.
  intros Hne Htidy. unfold read_text, stored.
  rewrite read_back by (by apply join_lines_no_cr).
  unfold strip. rewrite lstrip_join_lines, rstrip_join_lines by done.
  by apply split_join_lines.
Qed.

Lemma load_config_lines lines :
  lines ≠ [] → Forall tidy lines →
  load_config (R:=R) (Some (stored (R:=R) (join_lines lines)))
  = config_of (fold_left parse_line lines ∅).
Proof.
  intros Hne Htidy. by rewrite load_config_config_of, lines_of_file.
Qed.

End ConfigStoreMore.

Section ConfigStoreTheorems.

Context {R : runtime}.

Import PyStr PyStrFacts PyStrMore.

Local Arguments String.append !_ _ / : simpl nomatch.

Lemma tidy_key_value key v :
  tidy key → contains EQUALS key = false → plain v → tidy (key ++ String EQUALS v).
Proof.
  intros (Hne & Hlf & Hcr & Hstrip) Heq (Hvlf & Hvcr & Hvstrip).
  apply strip_fixed in Hstrip as [Hl _]. apply strip_fixed in Hvstrip as [_ Hvr].
  split; [by destruct key|]. unfold plain. rewrite !contains_app, Hlf, Hcr.
  cbn [contains]. rewrite Hvlf, Hvcr. repeat split; try done.
  unfold strip.
  assert (Hlk : lstrip (key ++ String EQUALS v) = key ++ String EQUALS v).
  { destruct key as [|x key]; [done|]. simpl in *.
    destruct (isspace x); [|done].
    pose proof (lstrip_length key) as Hlen. rewrite Hl in Hlen. simpl in Hlen. lia. }
  rewrite Hlk. apply rstrip_app; [done|]. by apply rstrip_cons.
Qed.

Lemma four_lines_join P F I W :
  four_lines P F I W
  = join_lines ["path" ++ String EQUALS P; "fps" ++ String EQUALS F;
                "interval" ++ String EQUALS I; "window" ++ String EQUALS W].
Proof.
  unfold four_lines, nl. cbn [join_lines].
  rewrite <- (append_assoc "path=" P), <- (append_assoc "fps=" F),
    <- (append_assoc "interval=" I). done.
Qed.

(** What [load_config] makes of a file with the four keys. *)
Lemma load_four_lines P F I W :
  plain P → plain F → plain I → plain W →
  load_config (R:=R) (Some (stored (R:=R) (four_lines P F I W)))
  = match float_of_str R F, float_of_str R I with
    | Some fps, Some interval =>
        {| cfg_path := Path R P; cfg_fps := fps; cfg_interval := interval;
           cfg_window := W |}
    | _, _ => defaults
    end.
Proof.
  intros HP HF HI HW. rewrite four_lines_join, load_config_lines.
  - cbn [fold_left]. rewrite !parse_line_key_value by done.
    destruct HP as (_ & _ & ->), HF as (_ & _ & ->), HI as (_ & _ & ->),
      HW as (_ & _ & ->).
    change (strip "path") with "path". change (strip "fps") with "fps".
    change (strip "interval") with "interval". change (strip "window") with "window".
    unfold config_of, get_float. by simplify_map_eq.
  - done.
  - repeat (constructor; [by apply tidy_key_value|]). constructor.
Qed.

(** X1.  A config file in which no [=] occurs, the empty file among them,
    loads as the defaults. *)
Theorem load_config_without_equals raw :
  contains EQUALS raw = false → load_config (R:=R) (Some raw) = defaults.
Proof.
  intros Hraw. rewrite load_config_config_of, parse_lines_skip; [done|].
  apply contains_split. unfold strip, read_text.
  by apply contains_rstrip, contains_lstrip, contains_universal_newlines.
Qed.

(** X2.  In a file with the four keys, an fps or interval text that
    [float] rejects makes [load_config] return all four defaults: the path
    and the window name in the file are dropped too. *)
Theorem bad_number_loses_all_settings P F I W :
  plain P → plain F → plain I → plain W →
  float_of_str R F = None ∨ float_of_str R I = None →
  load_config (R:=R) (Some (stored (R:=R) (four_lines P F I W))) = defaults.
Proof.
  intros HP HF HI HW Hbad. rewrite load_four_lines by done.
  destruct Hbad as [-> | ->]; [done|]. by destruct (float_of_str R F).
Qed.

(** X3.  The round trip of a configuration does not need its values to be
    free of [=]: the line is cut at its first [=] only.  Saving and loading
    returns the configuration whenever its four printed values are plain
    and [Path] and [float] recover the values from their text. *)
Theorem config_round_trip_any_values (c : Config R) (st : app R) :
  plain (str_of_path R (cfg_path c)) → plain (str_of_float R (cfg_fps c)) →
  plain (str_of_float R (cfg_interval c)) → plain (cfg_window c) →
  Path R (str_of_path R (cfg_path c)) = cfg_path c →
  float_of_str R (str_of_float R (cfg_fps c)) = Some (cfg_fps c) →
  float_of_str R (str_of_float R (cfg_interval c)) = Some (cfg_interval c) →
  load_config
    (CONFIG_FILE (save_config (cfg_path c) (cfg_fps c) (cfg_interval c) (cfg_window c) st))
  = c.
Proof.
  intros HP HF HI HW Hpath Hfps Hint. rewrite save_config_file.
  change (config_text (cfg_path c) (cfg_fps c) (cfg_interval c) (cfg_window c))
    with (four_lines (str_of_path R (cfg_path c)) (str_of_float R (cfg_fps c))
            (str_of_float R (cfg_interval c)) (cfg_window c)).
  rewrite load_four_lines by done. rewrite Hfps, Hint, Hpath. by destruct c.
Qed.

(** Two lines with different keys, or a line without a key, can be
    swapped. *)
Lemma parse_line_commute a1 a2 m :
  (∀ k, line_key a1 = Some k → line_key a2 = Some k → False) →
  parse_line (parse_line m a2) a1 = parse_line (parse_line m a1) a2.
Proof.
  intros Hk.
  destruct (parse_line_cases a1) as [[_ H1]|(k1 & v1 & Hk1 & H1)];
    destruct (parse_line_cases a2) as [[_ H2]|(k2 & v2 & Hk2 & H2)];
    rewrite ?H1, ?H2; try done.
  apply insert_insert_ne. intros ->. by apply (Hk k2).
Qed.

Lemma distinct_keys (lines : list string) j1 j2 a1 a2 k :
  NoDup (omap line_key lines) → j1 ≠ j2 →
  lines !! j1 = Some a1 → lines !! j2 = Some a2 →
  line_key a1 = Some k → line_key a2 = Some k → False.
Proof.
  revert j1 j2. induction lines as [|line lines IH]; intros j1 j2 Hnd Hne H1 H2 Hk1 Hk2;
    [done|].
  assert (Hin : ∀ j a, lines !! j = Some a → line_key a = Some k → k ∈ omap line_key lines).
  { intros j a Hj Ha. apply list_elem_of_omap. exists a. split; [|done].
    by apply list_elem_of_lookup_2 in Hj. }
  simpl in Hnd. destruct j1 as [|j1], j2 as [|j2]; simpl in *; simplify_eq.
  - rewrite Hk1 in Hnd. apply NoDup_cons in Hnd as [Hnot _]. by eapply Hnot, Hin.
  - rewrite Hk2 in Hnd. apply NoDup_cons in Hnd as [Hnot _]. by eapply Hnot, Hin.
  - eapply (IH j1 j2); try done; [|congruence].
    destruct (line_key line); [by apply NoDup_cons in Hnd as [_ ?]|done].
Qed.

(** The dict of lines 49-53 does not depend on the order of lines with
    different keys. *)
Lemma parse_lines_permutation (lines1 lines2 : list string) :
  lines1 ≡ₚ lines2 → NoDup (omap line_key lines1) →
  fold_left parse_line lines1 ∅ = fold_left parse_line lines2 ∅.
Proof.
  intros Hperm Hnd.
  rewrite <- !(fold_left_rev_right (λ line m, parse_line m line)).
  apply (foldr_permutation (=) (λ line m, parse_line m line) ∅).
  - intros j1 a1 j2 a2 m Hne H1 H2. apply parse_line_commute. intros k Hk1 Hk2.
    apply (distinct_keys (rev lines1) j1 j2 a1 a2 k); try done.
    assert (Hrev : omap line_key (rev lines1) ≡ₚ omap line_key lines1).
    { apply omap_Permutation. symmetry. apply Permutation_rev. }
    by rewrite Hrev.
  - by rewrite <- !Permutation_rev.
Qed.

(** X4.  The order of the lines of a config file is irrelevant: two files
    of tidy lines with pairwise different keys, one a rearrangement of the
    other, load as the same configuration. *)
Theorem line_order_is_irrelevant (lines1 lines2 : list string) :
  lines1 ≠ [] → Forall tidy lines1 → NoDup (omap line_key lines1) →
  lines1 ≡ₚ lines2 →
  load_config (R:=R) (Some (stored (R:=R) (join_lines lines1)))
  = load_config (R:=R) (Some (stored (R:=R) (join_lines lines2))).
Proof.
  intros Hne Htidy Hnd Hperm.
  assert (Hne2 : lines2 ≠ []).
  { intros ->. by apply Permutation_nil_r in Hperm. }
  assert (Htidy2 : Forall tidy lines2) by (by rewrite <- Hperm).
  rewrite !load_config_lines by done. f_equal.
  by apply parse_lines_permutation.
Qed.

(** X5.  A line with a key other than the four is ignored: put in front
    of a file of tidy lines, it does not change what is loaded. *)
Theorem unknown_key_is_ignored (line : string) (lines : list string) k :
  lines ≠ [] → tidy line → Forall tidy lines →
  line_key line = Some k → k ∉ ["path"; "fps"; "interval"; "window"] →
  load_config (R:=R) (Some (stored (R:=R) (join_lines (line :: lines))))
  = load_config (R:=R) (Some (stored (R:=R) (join_lines lines))).
Proof.
  intros Hne Hline Htidy Hk Hnot.
  rewrite !load_config_lines by (done || by constructor).
  apply config_of_ext. intros key Hkey. cbn [fold_left].
  apply parse_lines_lookup.
  destruct (parse_line_cases line) as [[Hk' _]|(k' & v & Hk' & ->)]; [congruence|].
  rewrite lookup_insert_ne; [done|]. intros <-. congruence.
Qed.

(** X6.  A key that no line of the file gives loads as its default,
    whatever the other lines hold. *)
Theorem missing_key_loads_default (lines : list string) :
  lines ≠ [] → Forall tidy lines →
  let c := load_config (R:=R) (Some (stored (R:=R) (join_lines lines))) in
  ("path" ∉ omap line_key lines → cfg_path c = SCRIPT_DIR R)
  ∧ ("fps" ∉ omap line_key lines → cfg_fps c = float_30)
  ∧ ("interval" ∉ omap line_key lines → cfg_interval c = float_1)
  ∧ ("window" ∉ omap line_key lines → cfg_window c = "Entire Screen").
Proof.
  intros Hne Htidy c. subst c. rewrite load_config_lines by done.
  unfold config_of, get_float.
  repeat split; intros Hkey; rewrite (parse_lines_absent _ _ Hkey);
    repeat case_match; simplify_eq; done.
Qed.

(** X7.  Of two lines with the same key the later one counts: a first
    line whose key comes again in the last line can be deleted without
    changing what is loaded. *)
Theorem later_line_overrides (first last : string) (lines : list string) k :
  tidy first → tidy last → Forall tidy lines →
  line_key first = Some k → line_key last = Some k →
  load_config (R:=R) (Some (stored (R:=R) (join_lines (first :: lines ++ [last]))))
  = load_config (R:=R) (Some (stored (R:=R) (join_lines (lines ++ [last])))).
Proof.
  intros Hfirst Hlast Htidy Hk1 Hk2.
  assert (Htidy' : Forall tidy (lines ++ [last])).
  { apply Forall_app. split; [done|]. by constructor. }
  rewrite !load_config_lines; try done; try (by constructor);
    try (by destruct lines).
  f_equal. cbn [fold_left]. rewrite !fold_left_app. cbn [fold_left].
  destruct (parse_line_cases last) as [[Hk' _]|(k' & v & Hk' & Hput)]; [congruence|].
  rewrite !Hput. assert (k' = k) as -> by congruence.
  apply map_eq. intros key. destruct (decide (k = key)) as [->|Hne].
  - by rewrite !lookup_insert_eq.
  - rewrite !lookup_insert_ne by done. apply parse_lines_lookup.
    destruct (parse_line_cases first) as [[Hk'' _]|(k'' & v'' & Hk'' & ->)];
      [congruence|].
    rewrite lookup_insert_ne; [done|]. congruence.
Qed.

End ConfigStoreTheorems.

(** ** Windows and the window box *)

Section Windows.

Context {R : runtime}.

Implicit Types (st : app R) (w : world).

Lemma existsb_eqb_elem_of (x : string) (l : list string) :
  existsb (String.eqb x) l = true ↔ x ∈ l.
Proof.
  induction l as [|y l IH]; simpl.
  - split; [done|]. by intros ?%elem_of_nil.
  - rewrite orb_true_iff, IH, elem_of_cons, String.eqb_eq. done.
Qed.

(** What is in the window list. *)
Lemma window_list_elem_of w name hwnd :
  (name, hwnd) ∈ get_window_list R w
  ↔ (name = "Entire Screen" ∧ hwnd = None)
    ∨ (∃ h, hwnd = Some h ∧ is_win32 R = true
            ∧ (h, true, name) ∈ EnumWindows w ∧ name ≠ "").
Proof.
  unfold get_window_list. rewrite elem_of_cons. split.
  - intros [[= -> ->]|Hin]; [by left|]. right.
    destruct (is_win32 R); [|by apply elem_of_nil in Hin].
    apply list_elem_of_omap in Hin as ([[h visible] title] & Hin & Hsome).
    destruct visible; simpl in Hsome; [|done].
    destruct (String.eqb title "") eqn:Ht; simpl in Hsome; [done|].
    injection Hsome as <- <-. exists h. repeat split; try done.
    by apply String.eqb_neq.
  - intros [[-> ->]|(h & -> & Hwin & Hin & Hne)]; [by left|]. right.
    rewrite Hwin. apply list_elem_of_omap. exists (h, true, name). split; [done|].
    simpl. apply String.eqb_neq in Hne. by rewrite Hne.
Qed.

(** X8.  The window list is "Entire Screen" with no handle, followed on
    win32 by the visible windows that have a title, and by nothing
    elsewhere: hidden and untitled windows are never offered. *)
Theorem window_list_entries w name hwnd :
  (name, hwnd) ∈ get_window_list R w
  ↔ (name = "Entire Screen" ∧ hwnd = None)
    ∨ (∃ h, hwnd = Some h ∧ is_win32 R = true
            ∧ (h, true, name) ∈ EnumWindows w ∧ name ≠ "").
Proof. apply window_list_elem_of. Qed.

(** X9.  After a refresh the window box holds one of the names it offers:
    the saved window name if a listed window has it, "Entire Screen"
    (which is always offered) if not. *)
Theorem refresh_selects_offered_name w st :
  let st' := refresh_windows w st in
  window_combo_values st' = (get_window_list R w).*1
  ∧ "Entire Screen" ∈ window_combo_values st'
  ∧ window_combo st' ∈ window_combo_values st'
  ∧ (cfg_window (config st) ∈ (get_window_list R w).*1 →
     window_combo st' = cfg_window (config st))
  ∧ (cfg_window (config st) ∉ (get_window_list R w).*1 →
     window_combo st' = "Entire Screen").
Proof.
  intros st'.
  assert (Hvalues : window_combo_values st' = (get_window_list R w).*1) by reflexivity.
  assert (Hcombo : window_combo st'
                   = if existsb (String.eqb (cfg_window (config st)))
                          (get_window_list R w).*1
                     then cfg_window (config st) else "Entire Screen") by reflexivity.
  assert (Hfirst : "Entire Screen" ∈ (get_window_list R w).*1).
  { unfold get_window_list. rewrite fmap_cons. apply elem_of_cons. by left. }
  rewrite Hvalues, Hcombo. clear Hvalues Hcombo.
  split; [done|]. split; [done|].
  destruct (existsb _ _) eqn:E.
  - apply existsb_eqb_elem_of in E. by repeat split.
  - repeat split; try done. intros Hin%existsb_eqb_elem_of. congruence.
Qed.

(** [find_window] returns a handle only of an entry with that name... *)
Lemma find_window_elem_of name (windows : list (string * option Z)) h :
  find_window name windows = Some h → (name, Some h) ∈ windows.
Proof.
  induction windows as [|[n hwnd] windows IH]; simpl; [done|].
  destruct (String.eqb n name) eqn:E.
  - apply String.eqb_eq in E as ->. intros ->. apply elem_of_cons. by left.
  - intros Hf. apply elem_of_cons. right. by apply IH.
Qed.

(** ... and of the first one. *)
Lemma find_window_first name (before after : list (string * option Z)) hwnd :
  name ∉ before.*1 →
  find_window name (before ++ (name, hwnd) :: after) = hwnd.
Proof.
  induction before as [|[n h] before IH]; simpl.
  - intros _. by rewrite String.eqb_refl.
  - intros [Hne Hnot]%not_elem_of_cons.
    apply not_eq_sym, String.eqb_neq in Hne. rewrite Hne. by apply IH.
Qed.

(** X10.  A session started with valid parameters tracks a window only if
    that window is visible and carries exactly the name in the window box;
    with the name "Entire Screen" in the box it never tracks a window, even
    when a window has that title. *)
Theorem start_tracks_window_of_that_name w st fps interval :
  recording st = false →
  float_of_str R (fps_entry st) = Some fps →
  float_of_str R (interval_entry st) = Some interval →
  le_zero fps = false → le_zero interval = false →
  (∀ h, selected_window (start_recording w st) = Some h →
        is_win32 R = true ∧ (h, true, window_combo st) ∈ EnumWindows w
        ∧ window_combo st ≠ "" ∧ window_combo st ≠ "Entire Screen")
  ∧ (window_combo st = "Entire Screen" → selected_window (start_recording w st) = None).
Proof.
  intros Hrec Hfps Hint Hf Hi.
  destruct (start_recording_valid w st fps interval Hrec Hfps Hint Hf Hi)
    as [filename ->].
  change (selected_window (spawn _ _))
    with (find_window (window_combo st) (get_window_list R w)).
  split.
  - intros h Hfind.
    assert (Hne : window_combo st ≠ "Entire Screen").
    { intros Heq. rewrite Heq in Hfind. unfold get_window_list in Hfind.
      cbn [find_window] in Hfind. by rewrite String.eqb_refl in Hfind. }
    apply find_window_elem_of, window_list_elem_of in Hfind
      as [[_ [=]]|(h' & [= <-] & Hwin & Hin & Hne')].
    by repeat split.
  - intros ->. unfold get_window_list. cbn [find_window]. by rewrite String.eqb_refl.
Qed.

End Windows.

(** ** More on starting, and on browsing *)

Section StartMore.

Context {R : runtime}.

Import PyStr PyStrFacts PyStrMore.

Implicit Types (st : app R) (w : world).

(** X11.  Of several visible windows with the same title, a session
    tracks the one the system enumerates first. *)
Theorem start_tracks_first_window_with_title w st fps interval before h after :
  recording st = false →
  float_of_str R (fps_entry st) = Some fps →
  float_of_str R (interval_entry st) = Some interval →
  le_zero fps = false → le_zero interval = false →
  is_win32 R = true →
  window_combo st ≠ "" → window_combo st ≠ "Entire Screen" →
  EnumWindows w = (before ++ (h, true, window_combo st) :: after)%list →
  (∀ h', (h', true, window_combo st) ∉ before) →
  selected_window (start_recording w st) = Some h.
Proof.
  intros Hrec Hfps Hint Hf Hi Hwin Hne Hnes Henum Hbefore.
  destruct (start_recording_valid w st fps interval Hrec Hfps Hint Hf Hi)
    as [filename ->].
  change (selected_window (spawn _ _))
    with (find_window (window_combo st) (get_window_list R w)).
  unfold get_window_list. rewrite Hwin, Henum, omap_app. cbn [omap list_omap].
  apply String.eqb_neq in Hne as Hne'. cbn [andb negb]. rewrite Hne'. cbn [negb].
  rewrite app_comm_cons. apply (find_window_first _ _ _ (Some h)).
  rewrite fmap_cons. intros [Heq|Hin]%elem_of_cons; [done|].
  apply list_elem_of_fmap in Hin as ([name hwnd] & Hname & Hin). simpl in Hname.
  subst name. apply list_elem_of_omap in Hin as ([[h' visible] title] & Hin & Hsome).
  destruct visible; simpl in Hsome; [|done].
  destruct (negb (String.eqb title "")); [|done]. injection Hsome as -> _.
  by apply (Hbefore h').
Qed.


(** X13.  The settings of a started session come back after a restart:
    the config [start_recording] saved makes the next start-up show the
    resolved folder, the fps and the interval in their fields, and the
    window name if a listed window still has it ("Entire Screen" if not).
    The printed values must be plain and recoverable by [Path] and
    [float]. *)
Theorem settings_survive_restart w w' st fps interval :
  recording st = false →
  float_of_str R (fps_entry st) = Some fps →
  float_of_str R (interval_entry st) = Some interval →
  le_zero fps = false → le_zero interval = false →
  let chosen := resolve R (Path R (path_entry st)) in
  plain (str_of_path R chosen) → plain (str_of_float R fps) →
  plain (str_of_float R interval) → plain (window_combo st) →
  Path R (str_of_path R chosen) = chosen →
  float_of_str R (str_of_float R fps) = Some fps →
  float_of_str R (str_of_float R interval) = Some interval →
  let st' := startup w' (CONFIG_FILE (start_recording w st)) in
  output_folder st' = chosen
  ∧ path_entry st' = str_of_path R chosen
  ∧ fps_entry st' = str_of_float R fps
  ∧ interval_entry st' = str_of_float R interval
  ∧ window_combo st'
    = (if existsb (String.eqb (window_combo st)) (get_window_list R w').*1
       then window_combo st else "Entire Screen")
  ∧ recording st' = false ∧ threads st' = [].
Proof.
  intros Hrec Hfps Hint Hf Hi chosen HP HF HI HW Hpath Hfloat Hfloat' st'.
  destruct (start_recording_valid w st fps interval Hrec Hfps Hint Hf Hi)
    as [filename Hst].
  assert (Hfile : CONFIG_FILE (start_recording w st)
                  = Some (stored (R:=R)
                            (four_lines (str_of_path R chosen) (str_of_float R fps)
                               (str_of_float R interval) (window_combo st)))).
  { by rewrite Hst. }
  assert (Hload : load_config (CONFIG_FILE (start_recording w st))
                  = Build_Config chosen fps interval (window_combo st)).
  { rewrite Hfile, load_four_lines by done. by rewrite Hfloat, Hfloat', Hpath. }
  subst st'. unfold startup. rewrite Hload. by repeat split.
Qed.

(** X14.  Browsing: a cancelled dialog changes nothing.  A chosen folder
    becomes the output folder and the text of the path field; the settings
    are written to config.txt exactly when both number fields hold numbers,
    and then with the folder, the two numbers and the name in the window
    box.  The recording flag, the threads and the buttons are never
    touched. *)
Theorem browse_folder_effects folder st :
  let st' := browse_folder folder st in
  (folder = "" → st' = st)
  ∧ (folder ≠ "" →
     output_folder st' = Path R folder ∧ path_entry st' = folder
     ∧ match float_of_str R (fps_entry st), float_of_str R (interval_entry st) with
       | Some fps, Some interval =>
           CONFIG_FILE st'
           = Some (stored (R:=R) (config_text (Path R folder) fps interval (window_combo st)))
       | _, _ => CONFIG_FILE st' = CONFIG_FILE st ∧ log st' = log st
       end)
  ∧ recording st' = recording st ∧ threads st' = threads st
  ∧ start_button st' = start_button st ∧ stop_button st' = stop_button st.
Proof.
  intros st'. subst st'. unfold browse_folder.
  destruct (String.eqb folder "") eqn:Hf.
  - apply String.eqb_eq in Hf. by repeat split.
  - apply String.eqb_neq in Hf. cbn [fps_entry interval_entry set_path_entry
      set_output_folder].
    split; [done|].
    destruct (float_of_str R (fps_entry st)) as [fps|];
      [destruct (float_of_str R (interval_entry st)) as [interval|]|];
      by repeat split.
Qed.

End StartMore.

(** ** All threads of a running program *)

Section Reachable.

Context {R : runtime}.

Implicit Types (st : app R) (th : thread R) (w : world) (l : locals) (a : action).

(** Where a thread of the state after an action comes from: it was there
    before, or it is an old thread after its step, or it was just started. *)
Lemma exec_thread_origin w a st i th' :
  threads (exec w a st) !! i = Some th' →
  threads st !! i = Some th'
  ∨ (∃ th, threads st !! i = Some th ∧ th' = set_pc (step w th st).1 th)
  ∨ (threads st !! i = None ∧ th_pc th' = at_start).
Proof.
  intros Hi.
  destruct (threads st !! i) as [th|] eqn:Hold.
  - destruct (exec_lookup w a i st th Hold) as [H|[_ H]]; rewrite H in Hi;
      injection Hi as <-; [by left|]. right. left. by exists th.
  - right. right. split; [done|].
    destruct a; simpl in Hi; try congruence.
    + destruct (window_combo_state st); simpl in Hi; congruence.
    + destruct (enabled (window_combo_state st)); [|congruence].
      destruct (window_combo_values st !! n); simpl in Hi; congruence.
    + rewrite browse_folder_threads in Hi. congruence.
    + destruct (enabled (refresh_button st)); simpl in Hi; congruence.
    + destruct (enabled (start_button st)); [|congruence].
      destruct (start_recording_threads w st) as [Hsame|(th0 & Hpc & Happ)].
      * rewrite Hsame in Hi. congruence.
      * rewrite Happ in Hi. apply lookup_app_Some in Hi as [Hi|[_ Hi]]; [congruence|].
        destruct (i - length (threads st))%nat; [|done]. by injection Hi as <-.
    + destruct (enabled (stop_button st)); simpl in Hi; congruence.
    + destruct (decide (i0 = i)) as [->|Hne].
      * rewrite record_missing in Hi by done. congruence.
      * rewrite record_lookup_ne in Hi by done. congruence.
Qed.

(** What holds of a thread at its start and is kept by every step holds
    of every thread of every reachable state. *)
Lemma reachable_threads (P : thread R → Prop) :
  (∀ th, th_pc th = at_start → P th) →
  (∀ w st th, P th → P (set_pc (step w th st).1 th)) →
  ∀ st, reachable st → ∀ i th, threads st !! i = Some th → P th.
Proof.
  intros Hstart Hstep st (w0 & file & acts & ->).
  assert (Hrun : ∀ acts st, (∀ i th, threads st !! i = Some th → P th) →
                            ∀ i th, threads (run acts st) !! i = Some th → P th).
  { clear acts. induction acts as [|[w a] acts IH]; intros st Hall; [done|].
    rewrite run_cons. apply IH. intros i th Hi.
    destruct (exec_thread_origin w a st i th Hi) as [Hold|[(th0 & Hold & ->)|[_ Hpc]]].
    - by apply (Hall i).
    - apply Hstep. by apply (Hall i).
    - by apply Hstart. }
  apply Hrun. intros i th Hi. by destruct i.
Qed.

Lemma encoder_lifecycle_step w st th :
  encoder_lifecycle th → encoder_lifecycle (set_pc (step w th st).1 th).
Proof.
  intros Hth l. simpl.
  unfold step, record_start, record_while, record_body, record_sleep.
  destruct (th_pc th) as [|l0|l0|l0|[l0|]] eqn:Hpc; simpl.
  - destruct (capture_region w st); simpl; [|done].
    intros [= <-]. simpl. split; [|done]. by destruct (sink_opens w _ _ _ _).
  - destruct (Hth l0) as [Hin _]; [by rewrite Hpc|]. rewrite Hpc in Hin.
    destruct (recording st); simpl; intros [= <-]; simpl; split; done.
  - destruct (Hth l0) as [Hin _]; [by rewrite Hpc|]. rewrite Hpc in Hin.
    intros [= <-]. simpl. split; [|done]. intros _.
    unfold write. destruct (isOpened (out l0)); by apply Hin.
  - destruct (Hth l0) as [Hin _]; [by rewrite Hpc|]. rewrite Hpc in Hin.
    intros [= <-]. split; [|done]. by apply Hin.
  - destruct (Hth l0) as [_ Hret]; [by rewrite Hpc|]. rewrite Hpc in Hret.
    intros [= <-]. split; [done|]. by apply Hret.
  - done.
Qed.

Lemma fit_channels img width0 height0 :
  channels (fit img width0 height0) = channels img.
Proof. unfold fit. by destruct (_ || _). Qed.

Lemma frames_bgr_step w st th : frames_bgr th → frames_bgr (set_pc (step w th st).1 th).
Proof.
  intros Hth l. simpl.
  unfold step, record_start, record_while, record_body, record_sleep.
  destruct (th_pc th) as [|l0|l0|l0|[l0|]] eqn:Hpc; simpl.
  - destruct (capture_region w st); simpl; [|done].
    intros [= <-]. simpl. destruct (sink_opens w _ _ _ _); constructor.
  - specialize (Hth l0). rewrite Hpc in Hth.
    destruct (recording st); simpl; intros [= <-]; simpl; by apply Hth.
  - specialize (Hth l0). rewrite Hpc in Hth. intros [= <-]. simpl.
    rewrite write_frames. destruct (isOpened (out l0)); [|by apply Hth].
    apply Forall_app. split; [by apply Hth|]. constructor; [|done].
    by rewrite fit_channels.
  - specialize (Hth l0). rewrite Hpc in Hth. intros [= <-]. by apply Hth.
  - specialize (Hth l0). rewrite Hpc in Hth. intros [= <-]. by apply Hth.
  - done.
Qed.


(** X16.  In every reachable state, the encoder of a thread that is in
    the loop has not been released, and the encoder of a thread that has
    returned from the loop is released and closed: the loop never writes
    to a released encoder and never returns without releasing it. *)
Theorem encoder_released_exactly_at_return st i th l :
  reachable st → threads st !! i = Some th → pc_locals (th_pc th) = Some l →
  (in_loop (th_pc th) = true → wr_released (out l) = false)
  ∧ (is_returned (th_pc th) = true →
     wr_released (out l) = true ∧ isOpened (out l) = false).
Proof.
  intros Hreach Hi Hl.
  apply (reachable_threads encoder_lifecycle) with (st := st) (i := i); try done.
  - intros th0 Hpc l0. by rewrite Hpc.
  - apply encoder_lifecycle_step.
Qed.

(** X17.  Every frame in the encoder of any thread of a reachable state
    has three channels: the alpha channel of the grab is always dropped
    before the frame is written. *)
Theorem frames_are_bgr st i o :
  reachable st → writer_of i st = Some o →
  Forall (λ frame, channels frame = 3) (wr_frames o).
Proof.
  intros Hreach Ho. unfold writer_of in Ho.
  destruct (threads st !! i) as [th|] eqn:Hi; [|done]. simpl in Ho.
  destruct (pc_locals (th_pc th)) as [l|] eqn:Hl; [|done].
  simpl in Ho. injection Ho as <-.
  apply (reachable_threads frames_bgr) with (st := st) (i := i) (th := th); try done.
  - intros th0 Hpc l0. by rewrite Hpc.
  - apply frames_bgr_step.
Qed.

(** X18.  A session keeps the parameters it was started with: whatever
    happens (fields edited, folder browsed, further steps), the thread is
    still in the table with the fps, interval, file and window name it
    captured. *)
Theorem session_parameters_are_fixed acts st i th :
  threads st !! i = Some th →
  ∃ th', threads (run acts st) !! i = Some th'
         ∧ th_fps th' = th_fps th ∧ th_interval th' = th_interval th
         ∧ th_save_file th' = th_save_file th
         ∧ th_window_name th' = th_window_name th.
Proof.
  intros Hi.
  destruct (run_thread_invariant (same_closure th)) with (acts := acts) (st := st)
    (i := i) (th := th) as (th' & Hth' & Hsame); try done.
  exists th'. by split.
Qed.

End Reachable.

(** ** The flag, the widgets and the ticks *)

Section Ticks.

Context {R : runtime}.

Implicit Types (st : app R) (th : thread R) (w : world) (l : locals) (a : action).


Lemma settled_ext st st' :
  recording st' = recording st → threads st' = threads st →
  start_button st' = start_button st → stop_button st' = stop_button st →
  refresh_button st' = refresh_button st →
  window_combo_state st' = window_combo_state st →
  settled st → settled st'.
Proof.
  intros Hr Ht Hs Hp Hf Hc [Hflag Hidle]. unfold settled.
  rewrite Hr, Ht, Hs, Hp, Hf, Hc. by split.
Qed.

(** What [start_recording] returns: the state itself, the state with one
    more event, or a state with the flag set and a new thread. *)
Lemma start_recording_shape w st :
  start_recording w st = st
  ∨ (∃ e, start_recording w st = emit e st)
  ∨ (∃ th st0, start_recording w st = spawn th st0 ∧ th_pc th = at_start
               ∧ threads st0 = threads st).
Proof.
  unfold start_recording.
  destruct (recording st); [by left|].
  destruct (float_of_str R (fps_entry st)) as [fps|]; [|right; left; by eexists].
  destruct (float_of_str R (interval_entry st)) as [interval|];
    [|right; left; by eexists].
  destruct (le_zero fps || le_zero interval); [right; left; by eexists|].
  right. right. eexists. eexists. split; [reflexivity|]. by split.
Qed.

(** A step that makes a live thread return leaves the flag cleared and
    the widgets idle. *)
Lemma step_returned_idle w th st :
  live th = true → is_returned (step w th st).1 = true →
  recording (step w th st).2 = false
  ∧ start_button (step w th st).2 = normal ∧ stop_button (step w th st).2 = disabled
  ∧ refresh_button (step w th st).2 = normal
  ∧ window_combo_state (step w th st).2 = normal.
Proof.
  unfold live, step, record_start, record_while, record_body, record_sleep.
  destruct (th_pc th); simpl; try done.
  - destruct (capture_region w st); simpl; [|done].
    by destruct (sink_opens w _ _ _ _).
  - by destruct (recording st) eqn:Hrec.
Qed.

Lemma settled_record w k st : settled st → settled (record w k st).
Proof.
  intros Hst.
  destruct (threads st !! k) as [th|] eqn:Hk; [|by rewrite record_missing].
  destruct (live th) eqn:Hl;
    [|rewrite record_not_live; [done|]; intros ? ?; by simplify_eq].
  pose proof (record_lookup_eq w k st th Hk) as Hk'.
  assert (Hfields : recording (record w k st) = recording (step w th st).2
                    ∧ start_button (record w k st) = start_button (step w th st).2
                    ∧ stop_button (record w k st) = stop_button (step w th st).2
                    ∧ refresh_button (record w k st) = refresh_button (step w th st).2
                    ∧ window_combo_state (record w k st)
                      = window_combo_state (step w th st).2).
  { by rewrite (record_live w k st th Hk Hl). }
  destruct Hfields as (Hr & Hs & Hp & Hf & Hc).
  destruct (is_returned (step w th st).1) eqn:Hret.
  - destruct (step_returned_idle w th st Hl Hret) as (Hr' & Hs' & Hp' & Hf' & Hc').
    split.
    + rewrite Hr, Hr'. done.
    + intros _. by rewrite Hs, Hp, Hf, Hc, Hs', Hp', Hf', Hc'.
  - assert (Hlive : live (set_pc (step w th st).1 th) = true).
    { unfold live. simpl. by rewrite Hret. }
    split.
    + intros _. by exists k, (set_pc (step w th st).1 th).
    + intros Hnone. by rewrite (Hnone k _ Hk') in Hlive.
Qed.

Lemma settled_exec w a st : settled st → settled (exec w a st).
Proof.
  intros Hst. destruct a; simpl.
  - by apply (settled_ext st).
  - by apply (settled_ext st).
  - by apply (settled_ext st).
  - by apply (settled_ext st).
  - by destruct (window_combo_state st) eqn:E.
  - destruct (enabled (window_combo_state st)); [|done].
    destruct (window_combo_values st !! n); [|done]. by apply (settled_ext st).
  - unfold browse_folder. destruct (String.eqb folder ""); [done|]. simpl.
    destruct (float_of_str R (fps_entry st)); [|by apply (settled_ext st)].
    destruct (float_of_str R (interval_entry st)); by apply (settled_ext st).
  - destruct (enabled (refresh_button st)); [|done]. by apply (settled_ext st).
  - destruct (enabled (start_button st)); [|done].
    destruct (start_recording_shape w st) as [->|[[e ->]|(th & st0 & -> & Hpc & Ht)]];
      [done|by apply (settled_ext st)|].
    assert (Hnew : threads (spawn th st0) !! length (threads st) = Some th).
    { simpl. rewrite Ht. by rewrite lookup_app_r, Nat.sub_diag. }
    assert (Hlive : live th = true) by (unfold live; by rewrite Hpc).
    split.
    + intros _. by exists (length (threads st)), th.
    + intros Hnone. by rewrite (Hnone _ _ Hnew) in Hlive.
  - destruct (enabled (stop_button st)); [|done].
    destruct Hst as [_ Hidle]. split; [done|]. exact Hidle.
  - by apply settled_record.
Qed.

(** X19.  In every reachable state the recording flag is set only while a
    [record] thread is live, and when no thread is live the program is
    idle again: Start and the refresh button enabled, Stop disabled, the
    window box usable. *)
Theorem flag_and_widgets_follow_the_thread st :
  reachable st →
  (recording st = true → ∃ i th, threads st !! i = Some th ∧ live th = true)
  ∧ ((∀ i th, threads st !! i = Some th → live th = false) →
     start_button st = normal ∧ stop_button st = disabled
     ∧ refresh_button st = normal ∧ enabled (window_combo_state st) = true).
Proof.
  intros (w0 & file & acts & ->).
  assert (Hrun : ∀ acts st, settled st → settled (run acts st)).
  { clear acts. induction acts as [|[w a] acts IH]; intros st Hst; [done|].
    rewrite run_cons. by apply IH, settled_exec. }
  apply Hrun. split; [done|]. intros _. by repeat split.
Qed.

(** A thread that is started with the flag already cleared: it opens the
    encoder, finds the flag cleared at its first loop test and returns. *)
Lemma cleared_flag_from_start i acts :
  ∀ st th,
    single_session st → threads st !! i = Some th → th_pc th = at_start →
    recording st = false →
    ∃ th', threads (run acts st) !! i = Some th'
           ∧ (∀ l', pc_locals (th_pc th') = Some l' → wr_frames (out l') = [])
           ∧ ((2 ≤ steps_of i acts)%nat →
              ∃ l', th_pc th' = returned (Some l') ∧ wr_frames (out l') = []
                    ∧ wr_released (out l') = true).
Proof.
  induction acts as [|[w a] acts IH]; intros st th Hinv Hi Hpc Hrec.
  { exists th. rewrite run_nil. split; [done|]. split.
    - intros l'. by rewrite Hpc.
    - unfold steps_of. simpl. lia. }
  rewrite run_cons, steps_of_cons.
  assert (Hl : live th = true) by (unfold live; by rewrite Hpc).
  pose proof (single_session_exec w a st Hinv) as Hinv'.
  destruct (is_step_of i (w, a)) eqn:Ha.
  - apply is_step_of_true in Ha. subst a.
    pose proof (record_lookup_eq w i st th Hi) as Hi'.
    assert (Hrec' : recording (exec w (thread_step i) st) = false).
    { simpl. rewrite (record_live w i st th Hi Hl). simpl. by apply step_recording. }
    destruct (capture_region_resolves w st) as [m Hm].
    unfold step, record_start in Hi'. rewrite Hpc, Hm in Hi'. simpl in Hi'.
    destruct (cleared_flag_run i acts _ _ _ Hinv' Hi' ltac:(done) eq_refl)
      as (th' & l' & Hth' & Hl' & (extra & He & Hn) & Hfin); simpl; try done.
    simpl in He, Hn. destruct extra; [|simpl in Hn; lia].
    assert (Hempty : wr_frames (out l') = []).
    { rewrite He. by destruct (sink_opens w _ _ _ _). }
    exists th'. split; [done|]. split.
    + intros l'' Hl''. by simplify_eq.
    + intros Hk. destruct Hfin as (Hret & Hrel & _); [simpl; lia|].
      exists l'. split; [|done].
      destruct (th_pc th'); simpl in *; try done. by simplify_eq.
  - assert (Hne : a ≠ thread_step i).
    { intros ->. rewrite (proj2 (is_step_of_true i w (thread_step i)) eq_refl) in Ha.
      done. }
    pose proof (exec_lookup_other w a i st th Hi Hne) as Hi'.
    pose proof (flag_stays_down w a i st th Hinv Hi Hl Hrec Hne) as Hrec'.
    destruct (IH _ _ Hinv' Hi' Hpc Hrec') as (th' & Hth' & Hframes & Hfin).
    exists th'. split; [done|]. split; [done|]. intros Hk. apply Hfin. simpl in Hk. lia.
Qed.

(** X20.  Start, then Stop before the thread has run: whatever happens
    next, the thread never writes a frame, and after two steps of its own
    it has returned with an empty, released encoder. *)
Theorem stop_before_first_tick_gives_no_frame w st i th acts :
  reachable st → threads st !! i = Some th → th_pc th = at_start →
  let st' := run acts (exec w click_stop st) in
  ∃ th', threads st' !! i = Some th'
         ∧ (∀ l', pc_locals (th_pc th') = Some l' → wr_frames (out l') = [])
         ∧ ((2 ≤ steps_of i acts)%nat →
            ∃ l', th_pc th' = returned (Some l') ∧ wr_frames (out l') = []
                  ∧ wr_released (out l') = true).
Proof.
  intros Hreach Hi Hpc st'.
  pose proof (reachable_single_session st Hreach) as Hinv.
  assert (Hl : live th = true) by (unfold live; by rewrite Hpc).
  destruct (Hinv i th Hi Hl) as (_ & Hstop & _).
  assert (Hst : exec w click_stop st = stop_recording st).
  { simpl. by rewrite Hstop. }
  apply (cleared_flag_from_start i acts (exec w click_stop st) th).
  - by apply single_session_exec.
  - by rewrite Hst.
  - done.
  - by rewrite Hst.
Qed.




End Ticks.

(** ** The further properties on concrete inputs *)

Module MoreRuns.

Import Sample MoreSample.

(** Decide a closed decidable statement by evaluation. *)
Ltac evaluate := apply (bool_decide_unpack _); vm_compute; exact I.

Lemma tidy_fps_line : tidy "fps=5.0".
Proof. split; [done|]. repeat split; vm_compute; reflexivity. Qed.

Lemma tidy_fps_line_2 : tidy "fps=2.0".
Proof. split; [done|]. repeat split; vm_compute; reflexivity. Qed.

Lemma tidy_window_line : tidy "window=Notepad".
Proof. split; [done|]. repeat split; vm_compute; reflexivity. Qed.

Lemma tidy_theme_line : tidy "theme=dark".
Proof. split; [done|]. repeat split; vm_compute; reflexivity. Qed.

Lemma notepad_started_reachable : reachable notepad_started.
Proof.
  exists desk, None, [(desk, select_window 1%nat); (desk, click_start)].
  vm_compute. reflexivity.
Qed.

Lemma notepad_three_ticks_reachable : reachable notepad_three_ticks.
Proof.
  exists desk, None,
    ([(desk, select_window 1%nat); (desk, click_start); (desk, thread_step 0%nat)]
     ++ tick desk ++ tick desk_resized ++ tick desk_resized)%list.
  vm_compute. reflexivity.
Qed.

Lemma load_config_without_equals_witness :
  load_config (R:=windows) (Some "") = defaults
  ∧ load_config (R:=windows) (Some "just some notes") = defaults.
Proof.
  split; apply load_config_without_equals; vm_compute; reflexivity.
Defined.

Lemma bad_number_witness :
  float_of_str windows "fast" = None
  ∧ load_config (R:=windows)
      (Some (stored (R:=windows) (four_lines "C:/videos" "fast" "1.0" "Notepad")))
    = defaults.
Proof.
  assert (Hbad : float_of_str windows "fast" = None) by (vm_compute; reflexivity).
  split; [exact Hbad|].
  apply (bad_number_loses_all_settings (R:=windows) "C:/videos" "fast" "1.0" "Notepad");
    try (repeat split; vm_compute; reflexivity).
  left. exact Hbad.
Defined.

Lemma config_round_trip_any_values_witness :
  PyStr.contains PyStr.EQUALS (cfg_window config_with_equals) = true
  ∧ load_config
      (CONFIG_FILE (save_config (cfg_path config_with_equals) (cfg_fps config_with_equals)
                      (cfg_interval config_with_equals) (cfg_window config_with_equals)
                      fresh_windows))
    = config_with_equals.
Proof.
  split; [vm_compute; reflexivity|].
  apply (config_round_trip_any_values config_with_equals fresh_windows);
    try (repeat split; vm_compute; reflexivity).
Defined.

Lemma line_order_witness :
  load_config (R:=windows)
    (Some (stored (R:=windows) (join_lines ["fps=5.0"; "window=Notepad"])))
  = load_config (R:=windows)
      (Some (stored (R:=windows) (join_lines ["window=Notepad"; "fps=5.0"]))).
Proof.
  apply (line_order_is_irrelevant (R:=windows)).
  - done.
  - repeat constructor; [apply tidy_fps_line | apply tidy_window_line].
  - evaluate.
  - apply perm_swap.
Defined.

Lemma unknown_key_witness :
  load_config (R:=windows)
    (Some (stored (R:=windows) (join_lines ["theme=dark"; "fps=5.0"])))
  = load_config (R:=windows) (Some (stored (R:=windows) (join_lines ["fps=5.0"]))).
Proof.
  apply (unknown_key_is_ignored (R:=windows) "theme=dark" ["fps=5.0"] "theme").
  - done.
  - apply tidy_theme_line.
  - repeat constructor. apply tidy_fps_line.
  - vm_compute. reflexivity.
  - evaluate.
Defined.

Lemma missing_key_witness :
  let c := load_config (R:=windows)
             (Some (stored (R:=windows) (join_lines ["fps=5.0"]))) in
  cfg_path c = SCRIPT_DIR windows ∧ cfg_window c = "Entire Screen"
  ∧ cfg_interval c = float_1.
Proof.
  destruct (missing_key_loads_default (R:=windows) ["fps=5.0"]) as (Hp & _ & Hi & Hw).
  - done.
  - repeat constructor. apply tidy_fps_line.
  - split; [apply Hp|split; [apply Hw|apply Hi]]; evaluate.
Defined.

Lemma later_line_witness :
  load_config (R:=windows)
    (Some (stored (R:=windows) (join_lines ["fps=5.0"; "window=Notepad"; "fps=2.0"])))
  = load_config (R:=windows)
      (Some (stored (R:=windows) (join_lines ["window=Notepad"; "fps=2.0"]))).
Proof.
  apply (later_line_overrides (R:=windows) "fps=5.0" "fps=2.0" ["window=Notepad"] "fps").
  - apply tidy_fps_line.
  - apply tidy_fps_line_2.
  - repeat constructor. apply tidy_window_line.
  - vm_compute. reflexivity.
  - vm_compute. reflexivity.
Defined.

Lemma start_tracks_window_witness :
  selected_window (start_recording desk notepad_picked) = Some 42
  ∧ (42, true, "Notepad") ∈ EnumWindows desk.
Proof.
  destruct (start_tracks_window_of_that_name desk notepad_picked float_30 float_1)
    as [Hsome _]; [vm_compute; reflexivity .. |].
  assert (Hsel : selected_window (start_recording desk notepad_picked) = Some 42)
    by (vm_compute; reflexivity).
  split; [exact Hsel|]. exact (proj1 (proj2 (Hsome 42 Hsel))).
Defined.

Lemma start_tracks_first_window_witness :
  selected_window (start_recording desk_two_notepads notepad_picked) = Some 42.
Proof.
  apply (start_tracks_first_window_with_title desk_two_notepads notepad_picked
           float_30 float_1 [(7, false, "Notepad")] 42 [(43, true, "Notepad")]);
    try (vm_compute; reflexivity); try done.
  intros h' Hin. apply list_elem_of_singleton in Hin. discriminate Hin.
Defined.


Lemma settings_survive_restart_witness :
  let st' := startup (R:=windows) desk_closed
               (CONFIG_FILE (start_recording desk notepad_picked)) in
  path_entry st' = "C:/timelapse" ∧ fps_entry st' = "30.0"
  ∧ interval_entry st' = "1.0" ∧ window_combo st' = "Entire Screen".
Proof.
  destruct (settings_survive_restart desk desk_closed notepad_picked float_30 float_1)
    as (_ & Hp & Hf & Hi & Hw & _);
    [repeat split; vm_compute; reflexivity .. |].
  split; [exact Hp|]. split; [exact Hf|]. split; [exact Hi|]. exact Hw.
Defined.


Lemma encoder_lifecycle_witness :
  ∃ th l, threads notepad_in_body !! 0%nat = Some th
          ∧ pc_locals (th_pc th) = Some l
          ∧ in_loop (th_pc th) = true
          ∧ wr_released (out l) = false.
Proof.
  eexists. eexists. split; [vm_compute; reflexivity|]. split; [vm_compute; reflexivity|].
  split; [vm_compute; reflexivity|].
  refine (proj1 (encoder_released_exactly_at_return notepad_in_body 0 _ _
                   Runs.notepad_in_body_reachable _ _) _);
    vm_compute; reflexivity.
Defined.

Lemma frames_are_bgr_witness :
  ∃ o, writer_of 0 notepad_three_ticks = Some o
       ∧ length (wr_frames o) = 3%nat
       ∧ Forall (λ frame, channels frame = 3) (wr_frames o).
Proof.
  eexists. split; [vm_compute; reflexivity|]. split; [vm_compute; reflexivity|].
  refine (frames_are_bgr notepad_three_ticks 0 _ notepad_three_ticks_reachable _).
  vm_compute. reflexivity.
Defined.

Lemma session_parameters_witness :
  ∃ th th',
    threads notepad_in_body !! 0%nat = Some th
    ∧ threads (run [(desk, type_fps "5.0"); (desk, type_interval "2.0");
                    (desk, click_browse "D:/elsewhere"); (desk, thread_step 0%nat)]
                 notepad_in_body) !! 0%nat = Some th'
    ∧ th_fps th' = th_fps th ∧ th_interval th' = th_interval th
    ∧ th_save_file th' = th_save_file th.
Proof.
  eexists.
  edestruct (session_parameters_are_fixed
               [(desk, type_fps "5.0"); (desk, type_interval "2.0");
                (desk, click_browse "D:/elsewhere"); (desk, thread_step 0%nat)]
               notepad_in_body 0) as (th' & Hth' & Hf & Hi & Hs & _).
  - vm_compute. reflexivity.
  - exists th'. split; [vm_compute; reflexivity|]. split; [exact Hth'|].
    split; [exact Hf|]. split; [exact Hi|exact Hs].
Defined.

Lemma flag_and_widgets_witness :
  reachable notepad_three_ticks
  ∧ recording notepad_three_ticks = true
  ∧ ∃ i th, threads notepad_three_ticks !! i = Some th ∧ live th = true.
Proof.
  split; [exact notepad_three_ticks_reachable|].
  assert (Hrec : recording notepad_three_ticks = true) by (vm_compute; reflexivity).
  split; [exact Hrec|].
  exact (proj1 (flag_and_widgets_follow_the_thread notepad_three_ticks
                  notepad_three_ticks_reachable) Hrec).
Defined.

Lemma stop_before_first_tick_witness :
  ∃ th' l',
    threads (run [(desk, thread_step 0%nat); (desk, thread_step 0%nat)]
               (exec desk click_stop notepad_started)) !! 0%nat = Some th'
    ∧ th_pc th' = returned (Some l') ∧ wr_frames (out l') = []
    ∧ wr_released (out l') = true.
Proof.
  destruct (stop_before_first_tick_gives_no_frame desk notepad_started 0
              (Build_thread (R:=windows) float_30 float_1 "C:/timelapse/timelapse.mp4"
                 "Notepad" at_start)
              [(desk, thread_step 0%nat); (desk, thread_step 0%nat)]
              notepad_started_reachable)
    as (th' & Hth' & _ & Hfin).
  - vm_compute. reflexivity.
  - vm_compute. reflexivity.
  - destruct Hfin as (l' & Hpc & Hframes & Hrel); [vm_compute; lia|].
    exists th', l'. by repeat split.
Defined.


End MoreRuns.
